(** * invoice_pdf: the RUT validator/formatter and the invoice annotation
      engine of [app.py], embedded in Rocq.

    Python values are modelled as follows.
    - A [str] is the list of its Unicode code points ([pystr]).
    - An [int] is a [Z]; a [float] is a binary64 [PrimFloat.float].
    - A call that may raise returns a [result].
    - The PyMuPDF / Pillow objects are external: they are reached through
      the class [Fitz], an interface with one field per call the program
      makes. *)

From Stdlib Require Import String Ascii DecimalString.
From Stdlib Require Import List ZArith NArith Bool Lia.
From Stdlib Require Import Floats Uint63.
From Equations Require Import Equations.
Import ListNotations.

(* ------------------------------------------------------------------ *)
(** ** Python strings                                                   *)
(* ------------------------------------------------------------------ *)

Module PyStr.

(** A code point, and a [str] as the sequence of its code points. *)
Definition cp := N.
Bind Scope N_scope with cp.
Definition pystr := list cp.

(** An ASCII literal of this file as a Python string. *)
Definition py (s : String.string) : pystr :=
  map Ascii.N_of_ascii (String.list_ascii_of_string s).
Arguments py s%_string_scope.

Definition cp_eqb (a b : cp) : bool := N.eqb a b.

Fixpoint str_eqb (a b : pystr) : bool :=
  match a, b with
  | [], [] => true
  | x :: a', y :: b' => cp_eqb x y && str_eqb a' b'
  | _, _ => false
  end.

(** The characters ['0'] .. ['9']. *)
Definition is_ascii_digit (c : cp) : bool :=
  (48 <=? c)%N && (c <=? 57)%N.

(** [str.isspace] / the class [\s] of [re] on [str] patterns: the
    code points CPython lists in [_PyUnicode_IsWhitespace]. *)
Definition is_space (c : cp) : bool :=
  ((9 <=? c) && (c <=? 13) || (28 <=? c) && (c <=? 32)
   || (c =? 133) || (c =? 160) || (c =? 5760)
   || (8192 <=? c) && (c <=? 8202)
   || (c =? 8232) || (c =? 8233) || (c =? 8239) || (c =? 8287)
   || (c =? 12288))%N.

(** Lower-casing of one character.  Only ['A'] .. ['Z'] are mapped: the
    program lower-cases strings over [0-9kK] and compares, ignoring
    case, against the letters [N], [o] and [r]; on those the Unicode
    tables agree with this map. *)
Definition lower_cp (c : cp) : cp :=
  if ((65 <=? c) && (c <=? 90))%N then (c + 32)%N else c.

Definition lower (s : pystr) : pystr := map lower_cp s.

(** [s.isdigit()]: non-empty and every character a digit.  It is applied
    to cleaned strings only, which are over [0-9k]. *)
Definition isdigit (s : pystr) : bool :=
  negb (Nat.eqb (length s) 0) && forallb is_ascii_digit s.

(** Slices with a negative bound: [s[:-k]] and [s[-k:]]. *)
Definition slice_to_neg (k : nat) (s : pystr) : pystr :=
  firstn (length s - k) s.
Definition slice_from_neg (k : nat) (s : pystr) : pystr :=
  skipn (length s - k) s.

(** [sep.join(parts)]. *)
Fixpoint join (sep : pystr) (parts : list pystr) : pystr :=
  match parts with
  | [] => []
  | [p] => p
  | p :: rest => p ++ sep ++ join sep rest
  end.

(** [s.endswith(t)]. *)
Definition endswith (s t : pystr) : bool :=
  str_eqb (slice_from_neg (length t) s) t && (length t <=? length s)%nat.

(** [s.strip()]: leading and trailing whitespace removed. *)
Fixpoint lstrip (s : pystr) : pystr :=
  match s with
  | c :: s' => if is_space c then lstrip s' else s
  | [] => []
  end.
Definition strip (s : pystr) : pystr := rev (lstrip (rev (lstrip s))).

(** [str(n)] for an [int]. *)
Definition str_of_int (n : Z) : pystr :=
  py (DecimalString.NilZero.string_of_int (Z.to_int n)).

End PyStr.
Import PyStr.

(* ------------------------------------------------------------------ *)
(** ** Exceptions                                                       *)
(* ------------------------------------------------------------------ *)

(** The exceptions that can occur; each is a subclass of [Exception]. *)
Inductive exn : Type :=
| ValueError
| IndexError
| ZeroDivisionError
| ExternalError (code : nat).   (* raised inside PyMuPDF or Pillow *)

Inductive result (A : Type) : Type :=
| Ok (a : A)
| Raise (e : exn).
Arguments Ok {A} a.
Arguments Raise {A} e.

Definition bind {A B} (m : result A) (f : A -> result B) : result B :=
  match m with
  | Ok a => f a
  | Raise e => Raise e
  end.

Notation "x <- m ;; k" := (bind m (fun x => k))
  (at level 61, m at next level, right associativity).

(* ------------------------------------------------------------------ *)
(** ** RUT helpers                                                      *)
(* ------------------------------------------------------------------ *)

Module Rut.

(** The class [[0-9kK]], whose complement [_clean_rut] deletes. *)
Definition in_rut_class (c : cp) : bool :=
  is_ascii_digit c || cp_eqb c 107%N || cp_eqb c 75%N.

(** [re.sub(r"[^0-9kK]", "", rut or "").lower()] *)
Definition _clean_rut (rut : pystr) : pystr :=
  lower (filter in_rut_class rut).

(** [int(d)] for a one-character string.  Modelled on the ASCII digits,
    the only characters that reach it; anything else is a [ValueError]. *)
Definition int_of_char (d : cp) : result Z :=
  if is_ascii_digit d then Ok (Z.of_N d - 48)%Z else Raise ValueError.

(** The [for d in reversed(num)] loop of [_calc_dv], with its two
    variables [s] and [mult]. *)
Fixpoint calc_dv_loop (ds : pystr) (s mult : Z) : result Z :=
  match ds with
  | [] => Ok s
  | d :: rest =>
      v <- int_of_char d ;;
      calc_dv_loop rest (s + v * mult)%Z
                   (if (mult =? 7)%Z then 2%Z else (mult + 1)%Z)
  end.

Definition _calc_dv (num : pystr) : result pystr :=
  s <- calc_dv_loop (rev num) 0%Z 2%Z ;;
  let r := (11 - s mod 11)%Z in
  if (r =? 11)%Z then Ok (py "0")
  else if (r =? 10)%Z then Ok (py "k")
  else Ok (str_of_int r).

(** The [while len(cuerpo) > 3] loop of [_format_miles]. *)
Equations? format_miles_loop (cuerpo : pystr) (partes : list pystr)
  : pystr * list pystr by wf (length cuerpo) lt :=
  format_miles_loop cuerpo partes with lt_dec 3 (length cuerpo) => {
    | left _ => format_miles_loop (slice_to_neg 3 cuerpo)
                                  (slice_from_neg 3 cuerpo :: partes)
    | right _ => (cuerpo, partes) }.
Proof.
  unfold slice_to_neg. rewrite length_firstn. lia.
Qed.

Definition _format_miles (cuerpo : pystr) : pystr :=
  match cuerpo with
  | [] => []
  | _ =>
      let '(cuerpo', partes) := format_miles_loop cuerpo [] in
      let partes' := match cuerpo' with
                     | [] => partes
                     | _ => cuerpo' :: partes
                     end in
      join (py ".") partes'
  end.

Definition format_rut (rut : pystr) : pystr :=
  let rut := _clean_rut rut in
  match rut with
  | [] => []
  | [_] => rut
  | _ =>
      let cuerpo := slice_to_neg 1 rut in
      let dv := slice_from_neg 1 rut in
      if negb (isdigit cuerpo) then rut
      else _format_miles cuerpo ++ py "-" ++ dv
  end.

Definition validate_rut (rut : pystr) : result bool :=
  let rut := _clean_rut rut in
  if (length rut <? 2)%nat || negb (isdigit (slice_to_neg 1 rut))
  then Ok false
  else
    let cuerpo := slice_to_neg 1 rut in
    let dv := slice_from_neg 1 rut in
    d <- _calc_dv cuerpo ;;
    Ok (str_eqb d dv).

End Rut.
Import Rut.

(* ------------------------------------------------------------------ *)
(** ** The identity-number scheme in the specification's words          *)
(* ------------------------------------------------------------------ *)

Module RutSpec.

(** Weights cycle 2,3,4,5,6,7 and restart at 2: the weight of the digit
    at distance [i] from the right end. *)
Definition weight (i : nat) : Z := (2 + Z.of_nat (i mod 6))%Z.

(** The weighted sum of the digits [ds], the first of which is at
    distance [i] from the right end. *)
Fixpoint weighted_sum (i : nat) (ds : list Z) : Z :=
  match ds with
  | [] => 0%Z
  | d :: rest => (d * weight i + weighted_sum (S i) rest)%Z
  end.

Definition digit_value (c : cp) : Z := (Z.of_N c - 48)%Z.

(** The character of a decimal digit [0 <= r <= 9]. *)
Definition digit_char (r : Z) : cp := Z.to_N (48 + r)%Z.

Definition check_digit (body : pystr) : pystr :=
  let sum := weighted_sum 0 (map digit_value (rev body)) in
  let remainder := (11 - sum mod 11)%Z in
  if (remainder =? 11)%Z then py "0"
  else if (remainder =? 10)%Z then py "k"
  else [digit_char remainder].

(** A ["."] every three digits counted from the right: a dot follows a
    character exactly when a positive multiple of three characters
    remain after it. *)
Fixpoint dots_every_3 (body : pystr) : pystr :=
  match body with
  | [] => []
  | c :: rest =>
      if negb (Nat.eqb (length rest) 0) && Nat.eqb (length rest mod 3) 0
      then c :: py "." ++ dots_every_3 rest
      else c :: dots_every_3 rest
  end.

(** "[clean(raw)] ends in [compute_check_digit(clean(raw)[:-1])]". *)
Definition ends_in_check_digit (raw : pystr) : Prop :=
  exists dv, _calc_dv (slice_to_neg 1 (_clean_rut raw)) = Ok dv
             /\ endswith (_clean_rut raw) dv = true.

(** What follows the first part once [partes] has been joined by ".". *)
Definition joined_tail (partes : list pystr) : pystr :=
  match partes with
  | [] => []
  | _ => py "." ++ join (py ".") partes
  end.

End RutSpec.

(* ------------------------------------------------------------------ *)
(** ** The fragment of [re] the program uses                            *)
(* ------------------------------------------------------------------ *)

Module Re.

(** Pattern syntax: literals, sequence, alternation, a greedy optional
    item, greedy repetition of a one-character class ([\s*],
    [[0-9]{5,8}]) and capturing group 1. *)
Inductive regex : Type :=
| Lit (c : cp)
| Seq (r1 r2 : regex)
| Alt (r1 r2 : regex)
| Opt (r : regex)
| Star (cls : cp -> bool)
| Rep (cls : cp -> bool) (lo hi : nat)
| Group (r : regex).

(** A match object; [group1] is what [m.group(1)] returns. *)
Record Match : Type := { group1 : option pystr }.

(** The rest of the pattern, to be matched at the remaining text with
    the current content of group 1. *)
Definition cont : Type := pystr -> option pystr -> option Match.

(** A literal under [re.IGNORECASE]: characters are compared after
    lower-casing. *)
Definition lit_eqb (ignorecase : bool) (c x : cp) : bool :=
  if ignorecase then cp_eqb (lower_cp c) (lower_cp x) else cp_eqb c x.

(** Greedy [cls*]: take one more character first, give it back when the
    rest of the pattern fails. *)
Fixpoint star (cls : cp -> bool) (s : pystr) (k : pystr -> option Match)
  : option Match :=
  match s with
  | c :: s' =>
      if cls c
      then match star cls s' k with
           | Some m => Some m
           | None => k s
           end
      else k s
  | [] => k s
  end.

(** Greedy [cls{lo,hi}]. *)
Fixpoint rep (cls : cp -> bool) (lo hi : nat) (s : pystr)
  (k : pystr -> option Match) : option Match :=
  let stop := if Nat.eqb lo 0 then k s else None in
  match hi with
  | O => stop
  | S hi' =>
      match s with
      | c :: s' =>
          if cls c
          then match rep cls (Nat.pred lo) hi' s' k with
               | Some m => Some m
               | None => stop
               end
          else stop
      | [] => stop
      end
  end.

(** Backtracking match of [r] at the start of [s]. *)
Fixpoint match_here (ignorecase : bool) (r : regex) (s : pystr)
  (g : option pystr) (k : cont) : option Match :=
  match r with
  | Lit c =>
      match s with
      | x :: s' => if lit_eqb ignorecase c x then k s' g else None
      | [] => None
      end
  | Seq r1 r2 =>
      match_here ignorecase r1 s g
        (fun s' g' => match_here ignorecase r2 s' g' k)
  | Alt r1 r2 =>
      match match_here ignorecase r1 s g k with
      | Some m => Some m
      | None => match_here ignorecase r2 s g k
      end
  | Opt r' =>
      match match_here ignorecase r' s g k with
      | Some m => Some m
      | None => k s g
      end
  | Star cls => star cls s (fun s' => k s' g)
  | Rep cls lo hi => rep cls lo hi s (fun s' => k s' g)
  | Group r' =>
      match_here ignorecase r' s g
        (fun s' _ => k s' (Some (firstn (length s - length s') s)))
  end.

Definition accept : cont := fun _ g => Some {| group1 := g |}.

(** The match object whose group 1 is [d]. *)
Definition with_group1 (d : pystr) : Match := {| group1 := Some d |}.

(** [pattern.search(text)]: the match at the leftmost position that has
    one. *)
Fixpoint search (ignorecase : bool) (r : regex) (text : pystr)
  {struct text} : option Match :=
  match match_here ignorecase r text None accept with
  | Some m => Some m
  | None =>
      match text with
      | [] => None
      | _ :: text' => search ignorecase r text'
      end
  end.

End Re.

(* ------------------------------------------------------------------ *)
(** ** Geometry and the external libraries                              *)
(* ------------------------------------------------------------------ *)

(** [fitz.Rect]. *)
Record Rect : Type := mkRect { x0 : float; y0 : float; x1 : float; y1 : float }.

Definition point : Type := (float * float)%type.
Definition color : Type := (Z * Z * Z)%type.

(** An [int] operand of a [float] operation.  Exact below 2^53, which
    covers the constants and pixel sizes of the program. *)
Definition float_of_int (z : Z) : float :=
  if (z <? 0)%Z then (- PrimFloat.of_uint63 (Uint63.of_Z (- z)))%float
  else PrimFloat.of_uint63 (Uint63.of_Z z).

(** [a / b] on two [int]s. *)
Definition int_truediv (a b : Z) : result float :=
  if (b =? 0)%Z then Raise ZeroDivisionError
  else Ok (float_of_int a / float_of_int b)%float.

(** The calls the program makes into PyMuPDF ([fitz]) and Pillow.  A
    document is the list of its pages; a page is whatever state the
    library keeps for it, so that what [search_for] finds may depend on
    what has been drawn.  Calls that decode their input may raise; the
    drawing calls return the page they have drawn on. *)
Class Fitz : Type := {
  Buffer : Type;
  Page : Type;
  Image : Type;
  (* fitz.open(stream=pdf_bytes, filetype="pdf") *)
  fitz_open : Buffer -> result (list Page);
  (* doc.save(output) *)
  doc_save : list Page -> Buffer;
  (* page.get_text() *)
  get_text : Page -> result pystr;
  (* pagina.search_for(etiqueta) *)
  search_for : Page -> pystr -> list Rect;
  (* pagina.insert_text(point, text, fontsize=, fontname=, fill=) *)
  insert_text : Page -> point -> pystr -> Z -> pystr -> color -> Page;
  (* pagina.insert_image(rect, stream=) *)
  insert_image : Page -> Rect -> Buffer -> Page;
  (* pagina.draw_rect(rect, color=, width=) *)
  draw_rect : Page -> Rect -> color -> float -> Page;
  (* pagina.insert_textbox(rect, text, fontsize=, fontname=, align=, fill=) *)
  insert_textbox : Page -> Rect -> pystr -> Z -> pystr -> Z -> color -> Page;
  (* pagina.rect.width *)
  page_width : Page -> float;
  (* fitz.get_text_length(text, fontsize=, fontname=) *)
  get_text_length : pystr -> Z -> pystr -> float;
  (* firma_img.save(img_bytes, format='PNG'); img_bytes.getvalue() *)
  save_png : Image -> result Buffer;
  (* Image.open(io.BytesIO(img_bytes)).convert("RGBA").size *)
  open_rgba_size : Buffer -> result (Z * Z)
}.

(* ------------------------------------------------------------------ *)
(** ** Invoice number and annotation                                    *)
(* ------------------------------------------------------------------ *)

Module Pdf.

(** The markers [Nº|N°|No|N\.o|Nro\.?].  Code points: [N] 78, [º] 186
    (U+00BA), [°] 176 (U+00B0), [o] 111, [.] 46, [r] 114. *)
Definition marcador_re : Re.regex :=
  Re.Alt (Re.Seq (Re.Lit 78) (Re.Lit 186))
   (Re.Alt (Re.Seq (Re.Lit 78) (Re.Lit 176))
     (Re.Alt (Re.Seq (Re.Lit 78) (Re.Lit 111))
       (Re.Alt (Re.Seq (Re.Lit 78) (Re.Seq (Re.Lit 46) (Re.Lit 111)))
          (Re.Seq (Re.Lit 78)
             (Re.Seq (Re.Lit 114)
                (Re.Seq (Re.Lit 111) (Re.Opt (Re.Lit 46)))))))).

(** [\s*([0-9]{5,8})] *)
Definition numero_re : Re.regex :=
  Re.Seq (Re.Star is_space) (Re.Group (Re.Rep is_ascii_digit 5 8)).

(** [re.compile(r"(?:Nº|N°|No|N\.o|Nro\.?)\s*([0-9]{5,8})", re.IGNORECASE)] *)
Definition patron_re : Re.regex := Re.Seq marcador_re numero_re.

Definition patron_search (texto : pystr) : option Re.Match :=
  Re.search true patron_re texto.

Section WithFitz.
Context {F : Fitz}.

(** The [for page in doc] loop of [extraer_numero_factura]: [Some v]
    when the loop returns [v], [None] when it runs to its end. *)
Fixpoint extraer_loop (doc : list Page) : result (option (option pystr)) :=
  match doc with
  | [] => Ok None
  | page :: rest =>
      texto <- get_text page ;;
      match patron_search texto with
      | Some m => Ok (Some (Re.group1 m))
      | None => extraer_loop rest
      end
  end.

(** [extraer_numero_factura]: the [try] block, then [except Exception:
    pass] and the final [return None].  [doc.close()] does not bear on
    the value returned. *)
Definition extraer_numero_factura (pdf_bytes : Buffer)
  : result (option pystr) :=
  match (doc <- fitz_open pdf_bytes ;; extraer_loop doc) with
  | Ok (Some v) => Ok v
  | Ok None => Ok None
  | Raise _ => Ok None
  end.

Definition helv : pystr := py "helv".
Definition negro : color := (0, 0, 0)%Z.

(** The closure [insertar_dato_campo] over [pagina]. *)
Definition insertar_dato_campo (pagina : Page) (etiqueta texto : pystr)
  (offset_x offset_y : Z) : Page :=
  match search_for pagina etiqueta, texto with
  | box :: _, _ :: _ =>
      let x := (x1 box + float_of_int offset_x)%float in
      let y := (y0 box + float_of_int offset_y)%float in
      insert_text pagina (x, y) texto 11 helv negro
  | _, _ => pagina
  end.

(** The four field writes. *)
Definition insertar_campos (pagina : Page)
  (nombre recinto fecha_str rut : pystr) : Page :=
  let pagina := insertar_dato_campo pagina (py "Nombre:") nombre 15 4 in
  let pagina := insertar_dato_campo pagina (py "Recinto:") recinto 15 7 in
  let pagina := insertar_dato_campo pagina (py "RUT:") rut 5 4 in
  insertar_dato_campo pagina (py "Fecha:") fecha_str 20 8.

(** The signature block. *)
Definition insertar_firma (pagina : Page) (firma_img : Image)
  (firma_width : Z) : result Page :=
  match search_for pagina (py "Firma") with
  | rect :: _ =>
      let x := (x0 rect + float_of_int 10)%float in
      let y := (y0 rect - float_of_int 20)%float in
      img_bytes <- save_png firma_img ;;
      size <- open_rgba_size img_bytes ;;
      let '(w_orig, h_orig) := size in
      escala <- int_truediv firma_width w_orig ;;
      let h_escala := (float_of_int h_orig * escala)%float in
      let firma_rect :=
        mkRect x y (x + float_of_int firma_width)%float (y + h_escala)%float in
      Ok (insert_image pagina firma_rect img_bytes)
  | [] => Ok pagina
  end.

(** ["Observación:"] *)
Definition texto_label : pystr := py "Observaci" ++ [243%N] ++ py "n:".

(** The observation block. *)
Definition insertar_observacion (pagina : Page) (observacion : pystr)
  : Page :=
  match search_for pagina (py "CEDIBLE"), strip observacion with
  | cbox :: _, _ :: _ =>
      let page_width := page_width pagina in
      let y_obs := (y1 cbox + float_of_int 10)%float in
      let ancho_label := get_text_length texto_label 11 helv in
      let ancho_campo := 280%Z in
      let alto_campo := 45%Z in
      let espacio := 10%Z in
      let total_ancho :=
        (ancho_label + float_of_int espacio + float_of_int ancho_campo)%float in
      let x_inicio := ((page_width - total_ancho) / float_of_int 2)%float in
      let pagina :=
        insert_text pagina (x_inicio, (y_obs + float_of_int 5)%float)
                    texto_label 11 helv negro in
      let textbox_rect :=
        mkRect (x_inicio + ancho_label + float_of_int espacio)%float
               y_obs
               (x_inicio + ancho_label + float_of_int espacio
                + float_of_int ancho_campo)%float
               (y_obs + float_of_int alto_campo)%float in
      let pagina := draw_rect pagina textbox_rect negro 0.5%float in
      insert_textbox pagina textbox_rect (strip observacion) 10 helv 0 negro
  | _, _ => pagina
  end.

(** Everything done to [pagina], in program order. *)
Definition anotar_pagina (pagina : Page) (firma_img : Image)
  (nombre recinto fecha_str rut observacion : pystr) (firma_width : Z)
  : result Page :=
  let pagina := insertar_campos pagina nombre recinto fecha_str rut in
  pagina <- insertar_firma pagina firma_img firma_width ;;
  Ok (insertar_observacion pagina observacion).

(** [doc[-1]]: the index of the last page.  What the library does for
    a document without pages is not known here; the model raises
    [IndexError] there, and no property below rests on that case. *)
Definition last_index (doc : list Page) : result nat :=
  match doc with
  | [] => Raise IndexError
  | _ => Ok (length doc - 1)%nat
  end.

(** The document after the page at [i] has become [pagina]: a page
    object is a view of its document. *)
Fixpoint set_page (doc : list Page) (i : nat) (pagina : Page) : list Page :=
  match doc, i with
  | [], _ => []
  | _ :: rest, O => pagina :: rest
  | p :: rest, S i' => p :: set_page rest i' pagina
  end.

(** [insertar_firma_y_texto_en_pdf]; the value is the content of the
    [io.BytesIO] it returns. *)
Definition insertar_firma_y_texto_en_pdf (pdf_bytes : Buffer)
  (firma_img : Image) (nombre recinto fecha_str rut observacion : pystr)
  (firma_width : Z) : result Buffer :=
  doc <- fitz_open pdf_bytes ;;
  i <- last_index doc ;;
  match nth_error doc i with
  | None => Raise IndexError
  | Some pagina =>
      pagina <- anotar_pagina pagina firma_img nombre recinto fecha_str rut
                              observacion firma_width ;;
      Ok (doc_save (set_page doc i pagina))
  end.

End WithFitz.

End Pdf.

(* ------------------------------------------------------------------ *)
(** ** The invoice-number pattern in the specification's words          *)
(* ------------------------------------------------------------------ *)

Module ScanSpec.

(** The literal markers [Nº], [N°], [No], [N.o], [Nro] and [Nro.]. *)
Definition markers : list pystr :=
  [ [78; 186]%N; [78; 176]%N; py "No"; py "N.o"; py "Nro"; py "Nro." ].

(** [m] is one of the markers, case ignored. *)
Definition is_marker (m : pystr) : Prop :=
  exists mk, In mk markers /\ lower m = lower mk.

(** [s] starts with a marker, optional whitespace, and the run [d] of
    five to eight decimal digits. *)
Definition match_here (s d : pystr) : Prop :=
  exists m ws rest,
    s = m ++ ws ++ d ++ rest
    /\ is_marker m
    /\ forallb is_space ws = true
    /\ forallb is_ascii_digit d = true
    /\ (5 <= length d <= 8)%nat.

(** The pattern matches [text] at offset [i] with digit run [d]. *)
Definition match_at (text : pystr) (i : nat) (d : pystr) : Prop :=
  (i <= length text)%nat /\ match_here (skipn i text) d.

(** [d] is the digit run of the first match in [text]: nothing matches
    at a smaller offset, and no longer run matches at this one. *)
Definition first_match (text d : pystr) : Prop :=
  exists i,
    match_at text i d
    /\ (forall j d', (j < i)%nat -> ~ match_at text j d')
    /\ (forall d', match_at text i d' -> (length d' <= length d)%nat).

Definition no_match (text : pystr) : Prop :=
  forall i d, ~ match_at text i d.

(** The longest prefix of [s] made of characters of the class [p]. *)
Fixpoint takewhile (p : cp -> bool) (s : pystr) : pystr :=
  match s with
  | c :: s' => if p c then c :: takewhile p s' else []
  | [] => []
  end.

(** What is left of [s] after a prefix that is [mk], case ignored. *)
Fixpoint strip_prefix_ci (mk s : pystr) : option pystr :=
  match mk, s with
  | [], _ => Some s
  | c :: mk', x :: s' =>
      if cp_eqb (lower_cp c) (lower_cp x) then strip_prefix_ci mk' s' else None
  | _ :: _, [] => None
  end.

(** Whitespace skipped, then up to eight digits, at least five. *)
Definition digit_run (s : pystr) : option pystr :=
  let d := firstn 8 (takewhile is_ascii_digit (lstrip s)) in
  if (5 <=? length d)%nat then Some d else None.

(** The rest of [s] after the marker [mk], handed to [k]. *)
Definition try_marker {A : Type} (k : pystr -> option A) (mk s : pystr)
  : option A :=
  match strip_prefix_ci mk s with
  | Some r => k r
  | None => None
  end.

(** The markers in the order the pattern tries them. *)
Definition tried : list pystr :=
  [ [78; 186]%N; [78; 176]%N; py "No"; py "N.o"; py "Nro."; py "Nro" ].

Fixpoint first_some {A : Type} (k : pystr -> option A) (s : pystr)
  (mks : list pystr) : option A :=
  match mks with
  | [] => None
  | mk :: mks' =>
      match try_marker k mk s with
      | Some d => Some d
      | None => first_some k s mks'
      end
  end.

(** The digit run of the match that starts at the first character of
    [s], if there is one. *)
Definition here (s : pystr) : option pystr := first_some digit_run s tried.

End ScanSpec.

(* ------------------------------------------------------------------ *)
(** ** The field table of the specification                             *)
(* ------------------------------------------------------------------ *)

Module FieldSpec.

Record field : Type := {
  label : pystr;
  value : pystr;
  offset_x : Z;
  offset_y : Z
}.

(** Nombre:(15,4), Recinto:(15,7), RUT:(5,4), Fecha:(20,8). *)
Definition fields (nombre recinto rut fecha : pystr) : list field :=
  [ {| label := py "Nombre:"; value := nombre; offset_x := 15; offset_y := 4 |};
    {| label := py "Recinto:"; value := recinto; offset_x := 15; offset_y := 7 |};
    {| label := py "RUT:"; value := rut; offset_x := 5; offset_y := 4 |};
    {| label := py "Fecha:"; value := fecha; offset_x := 20; offset_y := 8 |} ].

Definition write_fields {F : Fitz} (pagina : Page) (fs : list field) : Page :=
  fold_left
    (fun pg f =>
       Pdf.insertar_dato_campo pg (label f) (value f) (offset_x f) (offset_y f))
    fs pagina.

End FieldSpec.

(* ------------------------------------------------------------------ *)
(** ** A small implementation of the library interface                  *)
(* ------------------------------------------------------------------ *)

Module Mock.

(** What has been drawn on a page. *)
Inductive op : Type :=
| OpText (p : point) (t : pystr) (fontsize : Z) (fontname : pystr) (fill : color)
| OpImage (r : Rect) (w h : Z)
| OpRect (r : Rect) (c : color) (width : float)
| OpTextbox (r : Rect) (t : pystr) (fontsize : Z) (fontname : pystr)
            (align : Z) (fill : color).

(** A page: its text, the boxes of its labels, its width, and the
    drawing operations applied so far. *)
Record page : Type := {
  texto : pystr;
  anchors : list (pystr * Rect);
  width : float;
  drawn : list op
}.

Inductive buffer : Type :=
| PdfBytes (pages : list page)
| PngBytes (w h : Z)
| Garbage.

Record image : Type := { img_w : Z; img_h : Z }.

Definition draw (pg : page) (o : op) : page :=
  {| texto := texto pg; anchors := anchors pg; width := width pg;
     drawn := drawn pg ++ [o] |}.

#[global] Instance fitz : Fitz := {
  Buffer := buffer;
  Page := page;
  Image := image;
  fitz_open b :=
    match b with
    | PdfBytes pages => Ok pages
    | _ => Raise (ExternalError 1)
    end;
  doc_save pages := PdfBytes pages;
  get_text pg := Ok (texto pg);
  search_for pg etiqueta :=
    map snd (filter (fun a => str_eqb (fst a) etiqueta) (anchors pg));
  insert_text pg p t fs fn fill := draw pg (OpText p t fs fn fill);
  insert_image pg r stream :=
    match stream with
    | PngBytes w h => draw pg (OpImage r w h)
    | _ => pg
    end;
  draw_rect pg r c w := draw pg (OpRect r c w);
  insert_textbox pg r t fs fn al fill := draw pg (OpTextbox r t fs fn al fill);
  page_width pg := width pg;
  get_text_length t fs _ := (float_of_int (Z.of_nat (length t)) * float_of_int fs / float_of_int 2)%float;
  save_png img := Ok (PngBytes (img_w img) (img_h img));
  open_rgba_size b :=
    match b with
    | PngBytes w h => Ok (w, h)
    | _ => Raise (ExternalError 2)
    end
}.

Definition box (a b c d : Z) : Rect :=
  mkRect (float_of_int a) (float_of_int b) (float_of_int c) (float_of_int d).

(** The last page of an invoice, with its six labels. *)
Definition factura : page :=
  {| texto := py "Factura electronica N" ++ [186%N] ++ py " 123456 CEDIBLE";
     anchors := [ (py "Nombre:", box 40 600 80 612);
                  (py "Recinto:", box 40 620 85 632);
                  (py "RUT:", box 40 640 65 652);
                  (py "Fecha:", box 300 640 335 652);
                  (py "Firma", box 400 700 430 712);
                  (py "CEDIBLE", box 250 740 300 752) ];
     width := float_of_int 612;
     drawn := [] |}.

(** A page without any of the labels. *)
Definition portada : page :=
  {| texto := py "Condiciones generales";
     anchors := [];
     width := float_of_int 612;
     drawn := [] |}.

Definition firma : image := {| img_w := 200; img_h := 100 |}.

End Mock.

(* ------------------------------------------------------------------ *)
(** ** The form: session state, callbacks and the sign button           *)
(* ------------------------------------------------------------------ *)

Module Session.

(** [st.session_state], a dictionary from keys to strings. *)
Definition session_state : Type := string -> option pystr.

Definition vacio : session_state := fun _ => None.

(** [st.session_state.get(key, default)] *)
Definition get (s : session_state) (key : string) (default : pystr) : pystr :=
  match s key with
  | Some v => v
  | None => default
  end.

(** [st.session_state[key] = v] *)
Definition set (s : session_state) (key : string) (v : pystr)
  : session_state :=
  fun k => if String.eqb k key then Some v else s k.

End Session.

(** The truth value of a [str]. *)
Definition truthy (s : pystr) : bool :=
  match s with
  | [] => false
  | _ => true
  end.

Definition is_dot (c : cp) : bool := cp_eqb c 46%N.

Module Form.

(** [rut_on_change], the callback of the RUT field. *)
Definition rut_on_change (st : Session.session_state)
  : Session.session_state :=
  let raw := Session.get st "rut_raw" [] in
  let formatted := format_rut raw in
  let st := Session.set st "rut" formatted in
  Session.set st "rut_raw" formatted.

(** [rut = st.session_state.get("rut", st.session_state.get("rut_raw", ""))] *)
Definition rut_del_formulario (st : Session.session_state) : pystr :=
  Session.get st "rut" (Session.get st "rut_raw" []).

(** [if rut and not validate_rut(rut)]: whether the caption "RUT
    inválido" is shown. *)
Definition rut_invalido (rut : pystr) : result bool :=
  if truthy rut then v <- validate_rut rut ;; Ok (negb v) else Ok false.

Section WithFitz.
Context {F : Fitz}.

(** The script after the upload widget: [pdf_file] is the content of
    the uploaded file, if there is one; a detected number is stored
    under ["numero_factura"]. *)
Definition detectar_numero (pdf_file : option Buffer)
  (st : Session.session_state) : result Session.session_state :=
  match pdf_file with
  | None => Ok st
  | Some pdf_bytes =>
      numero_detectado <- Pdf.extraer_numero_factura pdf_bytes ;;
      match numero_detectado with
      | Some n =>
          if truthy n then Ok (Session.set st "numero_factura" n) else Ok st
      | None => Ok st
      end
  end.

(** The field writes with every box looked up on the page [origen]. *)
Definition escribir_desde (origen pagina : Page)
  (fs : list FieldSpec.field) : Page :=
  fold_left
    (fun pg f =>
       match search_for origen (FieldSpec.label f), FieldSpec.value f with
       | box :: _, _ :: _ =>
           insert_text pg
             ((x1 box + float_of_int (FieldSpec.offset_x f))%float,
              (y0 box + float_of_int (FieldSpec.offset_y f))%float)
             (FieldSpec.value f) 11 Pdf.helv Pdf.negro
       | _, _ => pg
       end)
    fs pagina.

End WithFitz.

End Form.

(** The two remaining outside calls: rasterising a page and the upload
    to Google Drive. *)
Class Servicios {F : Fitz} : Type := {
  (* pagina.get_pixmap(matrix=fitz.Matrix(zoom, zoom)).tobytes("png") *)
  get_pixmap_png : Page -> Z -> result Buffer;
  (* subir_a_drive(nombre_archivo, contenido_pdf) *)
  subir_a_drive : pystr -> Buffer -> result pystr
}.

Module Ui.

Section WithServicios.
Context {F : Fitz} {S : Servicios}.

(** [render_preview]: the last page at zoom 4, as PNG bytes. *)
Definition render_preview (pdf_bytes : Buffer) : result Buffer :=
  doc <- fitz_open pdf_bytes ;;
  i <- Pdf.last_index doc ;;
  match nth_error doc i with
  | None => Raise IndexError
  | Some pagina => get_pixmap_png pagina 4
  end.

(** The three warnings of the sign button: draw the signature first,
    complete all fields, the RUT is not valid. *)
Inductive aviso : Type := DibujaFirma | CompletaCampos | RutInvalido.

(** What the sign button does that can be observed, in order. *)
Inductive evento : Type :=
| EvWarning (a : aviso)                        (* st.warning *)
| EvSuccess                                    (* st.success *)
| EvUpload (archivo : pystr) (pdf : Buffer)    (* the call of subir_a_drive *)
| EvImage (png : Buffer)                       (* st.image(render_preview(..)) *)
| EvDownload (archivo : pystr) (pdf : Buffer). (* st.download_button *)

(** [f"Factura {numero} {iniciales}.pdf"] *)
Definition nombre_archivo (numero iniciales : pystr) : pystr :=
  py "Factura " ++ numero ++ py " " ++ iniciales ++ py ".pdf".

(** The body of [if st.button("Firmar Factura")], for an uploaded file
    [pdf_bytes]: the events it produces, and the exception that ends it
    if one does.  [fecha], a date, is always true; the [io.BytesIO] that
    [insertar_firma_y_texto_en_pdf] returns is always true. *)
Definition firmar_factura (signature_img : option Image) (pdf_bytes : Buffer)
  (nombre recinto fecha_str rut observacion numero_factura iniciales : pystr)
  : list evento * option exn :=
  match signature_img with
  | None => ([EvWarning DibujaFirma], None)
  | Some img =>
      if negb (truthy nombre && truthy recinto && truthy rut
               && truthy numero_factura)
      then ([EvWarning CompletaCampos], None)
      else
        match validate_rut rut with
        | Raise e => ([], Some e)
        | Ok false => ([EvWarning RutInvalido], None)
        | Ok true =>
            match Pdf.insertar_firma_y_texto_en_pdf pdf_bytes img nombre
                    recinto fecha_str rut observacion 120 with
            | Raise e => ([], Some e)
            | Ok pdf_final =>
                let archivo := nombre_archivo numero_factura iniciales in
                match subir_a_drive archivo pdf_final with
                | Raise e => ([EvSuccess; EvUpload archivo pdf_final], Some e)
                | Ok _ =>
                    match render_preview pdf_final with
                    | Raise e =>
                        ([EvSuccess; EvUpload archivo pdf_final; EvSuccess],
                         Some e)
                    | Ok png =>
                        ([EvSuccess; EvUpload archivo pdf_final; EvSuccess;
                          EvImage png; EvDownload archivo pdf_final], None)
                    end
                end
            end
        end
  end.

End WithServicios.

End Ui.

(** A second implementation of the library interface, whose pages may
    be unreadable: a page is its text, or nothing. *)
Module MockIlegible.

Definition fitz : Fitz := {|
  Buffer := list (option pystr);
  Page := option pystr;
  Image := unit;
  fitz_open := fun b => Ok b;
  doc_save := fun pages => pages;
  get_text := fun pg =>
    match pg with
    | Some t => Ok t
    | None => Raise (ExternalError 3)
    end;
  search_for := fun _ _ => [];
  insert_text := fun pg _ _ _ _ _ => pg;
  insert_image := fun pg _ _ => pg;
  draw_rect := fun pg _ _ _ => pg;
  insert_textbox := fun pg _ _ _ _ _ _ => pg;
  page_width := fun _ => float_of_int 612;
  get_text_length := fun _ _ _ => float_of_int 66;
  save_png := fun _ => Ok [];
  open_rgba_size := fun _ => Ok (1, 1)%Z
|}.

End MockIlegible.

(** The sample invoice page without its "Nombre:" label, and without
    its "CEDIBLE" label. *)
Module MockPaginas.

Definition sin_etiqueta (etiqueta : pystr) : Mock.page :=
  {| Mock.texto := Mock.texto Mock.factura;
     Mock.anchors :=
       filter (fun a => negb (str_eqb (fst a) etiqueta))
              (Mock.anchors Mock.factura);
     Mock.width := Mock.width Mock.factura;
     Mock.drawn := [] |}.

Definition sin_nombre : Mock.page := sin_etiqueta (py "Nombre:").
Definition sin_cedible : Mock.page := sin_etiqueta (py "CEDIBLE").

End MockPaginas.

Module MockServicios.

#[global] Instance servicios : @Servicios Mock.fitz := {
  get_pixmap_png pg zoom :=
    Ok (Mock.PngBytes (612 * zoom) (792 * zoom));
  subir_a_drive archivo _ :=
    match archivo with
    | [] => Raise (ExternalError 4)
    | _ => Ok (py "1a2b3c")
    end
}.

(** A signature raster of width zero. *)
Definition firma_vacia : Mock.image := {| Mock.img_w := 0; Mock.img_h := 100 |}.

End MockServicios.

(* ================================================================== *)
(** * Properties                                                        *)
(* ================================================================== *)

(** ** Check digit *)

Lemma int_of_char_digit d :
  is_ascii_digit d = true -> int_of_char d = Ok (RutSpec.digit_value d).
Proof. intros H. unfold int_of_char. now rewrite H. Qed.

Lemma weight_next i :
  (if (RutSpec.weight i =? 7)%Z then 2%Z else (RutSpec.weight i + 1)%Z)
  = RutSpec.weight (S i).
Proof.
  unfold RutSpec.weight.
  assert (Hi : (i mod 6 < 6)%nat) by (apply Nat.mod_upper_bound; lia).
  assert (Hs : S i mod 6 = if Nat.eqb (i mod 6) 5 then 0%nat else S (i mod 6)).
  { replace (S i) with (i + 1)%nat by lia.
    rewrite Nat.Div0.add_mod by lia.
    remember (i mod 6)%nat as m.
    do 6 (destruct m as [|m]; [reflexivity|]). lia. }
  rewrite Hs.
  remember (i mod 6)%nat as m.
  do 6 (destruct m as [|m]; [reflexivity|]). lia.
Qed.

Lemma calc_dv_loop_sum ds : forall i s,
  forallb is_ascii_digit ds = true ->
  calc_dv_loop ds s (RutSpec.weight i)
  = Ok (s + RutSpec.weighted_sum i (map RutSpec.digit_value ds))%Z.
Proof.
  induction ds as [|d ds IH]; intros i s H; simpl.
  - f_equal. lia.
  - simpl in H. apply andb_prop in H as [Hd Hds].
    rewrite (int_of_char_digit d Hd). simpl.
    rewrite weight_next, IH by assumption. f_equal. lia.
Qed.

Lemma str_of_int_digit r :
  (1 <= r <= 9)%Z -> str_of_int r = [RutSpec.digit_char r].
Proof.
  intros H.
  assert (E : (r = 1 \/ r = 2 \/ r = 3 \/ r = 4 \/ r = 5 \/ r = 6 \/ r = 7
              \/ r = 8 \/ r = 9)%Z) by lia.
  repeat (destruct E as [E|E]; [subst r; reflexivity|]).
  subst r; reflexivity.
Qed.

Lemma calc_dv_digits body :
  forallb is_ascii_digit body = true ->
  _calc_dv body = Ok (RutSpec.check_digit body).
Proof.
  intros H. unfold _calc_dv, RutSpec.check_digit.
  assert (Hr : forallb is_ascii_digit (rev body) = true).
  { rewrite forallb_forall in *. intros x Hx. apply H, in_rev, Hx. }
  change 2%Z with (RutSpec.weight 0) at 1.
  rewrite (calc_dv_loop_sum (rev body) 0 0 Hr).
  unfold bind. rewrite Z.add_0_l.
  set (sum := RutSpec.weighted_sum 0 (map RutSpec.digit_value (rev body))).
  assert (Hm : (0 <= sum mod 11 < 11)%Z) by (apply Z.mod_pos_bound; lia).
  destruct (11 - sum mod 11 =? 11)%Z eqn:E11; [reflexivity|].
  destruct (11 - sum mod 11 =? 10)%Z eqn:E10; [reflexivity|].
  rewrite str_of_int_digit; [reflexivity|lia].
Qed.

Lemma check_digit_length body : length (RutSpec.check_digit body) = 1%nat.
Proof.
  unfold RutSpec.check_digit.
  repeat match goal with |- context [if ?b then _ else _] => destruct b end;
    reflexivity.
Qed.

(** C1: on a body of decimal digits [_calc_dv] returns the check digit
    of the weighted modulo-11 scheme (digits right to left, weights
    cycling 2..7, remainder [11 - sum mod 11], 11 gives "0", 10 gives
    "k", otherwise the digit); body 12345678 has check digit 5, so
    12345678-5 validates and 12345678-4 does not. *)
Theorem calc_dv_is_mod11_scheme (body : pystr) :
  forallb is_ascii_digit body = true ->
  _calc_dv body = Ok (RutSpec.check_digit body)
  /\ _calc_dv (py "12345678") = Ok (py "5")
  /\ validate_rut (py "12345678-5") = Ok true
  /\ validate_rut (py "12345678-4") = Ok false.
Proof.
  intros H. split; [now apply calc_dv_digits | repeat split; reflexivity].
Qed.

Lemma calc_dv_is_mod11_scheme_witness :
  forallb is_ascii_digit (py "7654321") = true
  /\ (_calc_dv (py "7654321") = Ok (RutSpec.check_digit (py "7654321"))
      /\ _calc_dv (py "12345678") = Ok (py "5")
      /\ validate_rut (py "12345678-5") = Ok true
      /\ validate_rut (py "12345678-4") = Ok false).
Proof.
  split; [reflexivity | apply (calc_dv_is_mod11_scheme (py "7654321")); reflexivity].
Defined.

(** ** Thousands separators *)

Lemma dots_every_3_short body :
  (length body <= 3)%nat -> RutSpec.dots_every_3 body = body.
Proof.
  intros H.
  destruct body as [|a [|b [|c [|d body]]]]; try reflexivity.
  simpl in H. lia.
Qed.

Lemma dots_every_3_app3 a b :
  a <> [] -> length b = 3%nat ->
  RutSpec.dots_every_3 (a ++ b) = RutSpec.dots_every_3 a ++ py "." ++ b.
Proof.
  intros Ha Hb. induction a as [|c a IH]; [congruence|].
  destruct a as [|c' a].
  - simpl. rewrite Hb. simpl. now rewrite dots_every_3_short by lia.
  - assert (IH' := IH ltac:(discriminate)). clear IH.
    change ((c :: c' :: a) ++ b) with (c :: ((c' :: a) ++ b)).
    cbn [RutSpec.dots_every_3].
    rewrite IH'. rewrite length_app, Hb.
    replace ((length (c' :: a) + 3) mod 3)%nat with (length (c' :: a) mod 3)%nat.
    2:{ rewrite <- (Nat.Div0.mod_add (length (c' :: a)) 1 3). f_equal; lia. }
    replace (Nat.eqb (length (c' :: a) + 3) 0) with false
      by (symmetry; apply Nat.eqb_neq; simpl; lia).
    replace (Nat.eqb (length (c' :: a)) 0) with false
      by (symmetry; apply Nat.eqb_neq; simpl; lia).
    cbn [negb andb].
    destruct (Nat.eqb (length (c' :: a) mod 3) 0); cbn [app];
      now rewrite <- ?app_assoc.
Qed.

Lemma join_cons p partes :
  join (py ".") (p :: partes) = p ++ RutSpec.joined_tail partes.
Proof. destruct partes; simpl; [now rewrite app_nil_r | reflexivity]. Qed.

Lemma format_miles_loop_joined cuerpo partes :
  cuerpo <> [] ->
  fst (format_miles_loop cuerpo partes) <> []
  /\ join (py ".") (fst (format_miles_loop cuerpo partes)
                    :: snd (format_miles_loop cuerpo partes))
     = RutSpec.dots_every_3 cuerpo ++ RutSpec.joined_tail partes.
Proof.
  funelim (format_miles_loop cuerpo partes); intros Hne.
  - (* one more turn of the loop *)
    assert (Hsplit : cuerpo = slice_to_neg 3 cuerpo ++ slice_from_neg 3 cuerpo)
      by (symmetry; apply firstn_skipn).
    assert (Hlen : length (slice_from_neg 3 cuerpo) = 3%nat)
      by (unfold slice_from_neg; rewrite length_skipn; lia).
    assert (Hpre : slice_to_neg 3 cuerpo <> []).
    { intros E. apply (f_equal (@length _)) in E.
      unfold slice_to_neg in E. rewrite length_firstn in E. simpl in E. lia. }
    destruct (H Hpre) as [H1 H2]. split; [exact H1|].
    rewrite H2. rewrite Hsplit at 3.
    rewrite dots_every_3_app3 by assumption.
    cbn [RutSpec.joined_tail]. rewrite join_cons. now rewrite <- !app_assoc.
  - (* the loop exits *)
    cbn [fst snd]. split; [exact Hne|].
    rewrite join_cons, dots_every_3_short by lia. reflexivity.
Qed.

Lemma format_miles_dots cuerpo :
  _format_miles cuerpo = RutSpec.dots_every_3 cuerpo.
Proof.
  destruct cuerpo as [|c cuerpo]; [reflexivity|].
  unfold _format_miles.
  destruct (format_miles_loop_joined (c :: cuerpo) [] ltac:(discriminate))
    as [H1 H2].
  destruct (format_miles_loop (c :: cuerpo) []) as [c' ps]. cbn [fst snd] in *.
  destruct c' as [|x c']; [congruence|].
  rewrite H2. cbn [RutSpec.joined_tail]. apply app_nil_r.
Qed.

(** ** Cleaning and formatting *)

Lemma in_rut_class_lower c :
  in_rut_class c = true ->
  in_rut_class (lower_cp c) = true /\ lower_cp (lower_cp c) = lower_cp c.
Proof.
  unfold in_rut_class, is_ascii_digit, cp_eqb, lower_cp. intros H.
  destruct ((65 <=? c)%N && (c <=? 90)%N) eqn:U.
  - apply andb_prop in U as [U1 U2].
    apply N.leb_le in U1, U2.
    assert (c = 75%N) as ->.
    { repeat (apply orb_prop in H as [H|H]).
      - apply andb_prop in H as [_ H]. apply N.leb_le in H. lia.
      - apply N.eqb_eq in H. lia.
      - now apply N.eqb_eq in H. }
    split; reflexivity.
  - rewrite U. split; [exact H | reflexivity].
Qed.

Lemma clean_rut_app a b : _clean_rut (a ++ b) = _clean_rut a ++ _clean_rut b.
Proof. unfold _clean_rut, lower. now rewrite filter_app, map_app. Qed.

Lemma clean_rut_idem s : _clean_rut (_clean_rut s) = _clean_rut s.
Proof.
  unfold _clean_rut, lower. induction s as [|c s IH]; [reflexivity|].
  simpl. destruct (in_rut_class c) eqn:E; [|exact IH].
  destruct (in_rut_class_lower c E) as [E1 E2].
  simpl. rewrite E1. simpl. now rewrite E2, IH.
Qed.

Lemma clean_rut_dots body :
  _clean_rut (RutSpec.dots_every_3 body) = _clean_rut body.
Proof.
  induction body as [|c body IH]; [reflexivity|].
  cbn [RutSpec.dots_every_3].
  destruct (negb (Nat.eqb (length body) 0) && Nat.eqb (length body mod 3) 0).
  - change (c :: py "." ++ RutSpec.dots_every_3 body)
      with ([c] ++ py "." ++ RutSpec.dots_every_3 body).
    change (c :: body) with ([c] ++ body).
    rewrite !clean_rut_app, IH. reflexivity.
  - change (c :: RutSpec.dots_every_3 body)
      with ([c] ++ RutSpec.dots_every_3 body).
    change (c :: body) with ([c] ++ body).
    now rewrite !clean_rut_app, IH.
Qed.

Lemma format_rut_unfold raw :
  format_rut raw =
    if (length (_clean_rut raw) <? 2)%nat then _clean_rut raw
    else if negb (isdigit (slice_to_neg 1 (_clean_rut raw)))
         then _clean_rut raw
         else RutSpec.dots_every_3 (slice_to_neg 1 (_clean_rut raw))
              ++ py "-" ++ slice_from_neg 1 (_clean_rut raw).
Proof.
  unfold format_rut.
  destruct (_clean_rut raw) as [|x [|y c]]; try reflexivity.
  change (length (x :: y :: c) <? 2)%nat with false. cbv iota.
  now rewrite format_miles_dots.
Qed.

Lemma clean_format_rut raw : _clean_rut (format_rut raw) = _clean_rut raw.
Proof.
  rewrite format_rut_unfold.
  destruct (length (_clean_rut raw) <? 2)%nat; [apply clean_rut_idem|].
  destruct (negb (isdigit (slice_to_neg 1 (_clean_rut raw))));
    [apply clean_rut_idem|].
  rewrite !clean_rut_app, clean_rut_dots. change (_clean_rut (py "-")) with (@nil cp).
  cbn [app]. rewrite <- clean_rut_app.
  unfold slice_to_neg, slice_from_neg. rewrite firstn_skipn.
  apply clean_rut_idem.
Qed.

(** C3: [format_rut] cleans its input; a cleaned value of fewer than two
    characters, or one whose body is not purely numeric, is returned as
    it is; otherwise the body, with a "." every three digits from the
    right, is joined to the check digit by "-".  format("1") = "1",
    format("") = "", and body 12345678 becomes 12.345.678. *)
Theorem format_rut_by_cases (raw : pystr) :
  format_rut raw =
    (if (length (_clean_rut raw) <? 2)%nat then _clean_rut raw
     else if negb (isdigit (slice_to_neg 1 (_clean_rut raw)))
          then _clean_rut raw
          else RutSpec.dots_every_3 (slice_to_neg 1 (_clean_rut raw))
               ++ py "-" ++ slice_from_neg 1 (_clean_rut raw))
  /\ format_rut (py "1") = py "1"
  /\ format_rut (py "") = py ""
  /\ _format_miles (py "12345678") = py "12.345.678"
  /\ format_rut (py "123456785") = py "12.345.678-5".
Proof.
  split; [apply format_rut_unfold | repeat split; reflexivity].
Qed.

(** C9: formatting is idempotent, on every input:
    format(format(raw)) = format(raw). *)
Theorem format_rut_idempotent (raw : pystr) :
  format_rut (format_rut raw) = format_rut raw.
Proof.
  rewrite (format_rut_unfold (format_rut raw)), clean_format_rut.
  symmetry. apply format_rut_unfold.
Qed.

(** ** Validation *)

Lemma str_eqb_sym a : forall b, str_eqb a b = str_eqb b a.
Proof.
  induction a as [|x a IH]; destruct b as [|y b]; try reflexivity.
  simpl. unfold cp_eqb. now rewrite N.eqb_sym, IH.
Qed.

Lemma isdigit_forallb s : isdigit s = true -> forallb is_ascii_digit s = true.
Proof. unfold isdigit. intros H. now apply andb_prop in H. Qed.

(** C2, as stated, fails: the cleaned input "0" ends in the check digit
    of its empty body, and is not valid. *)
Lemma validate_rut_endswith_counterexample :
  ~ (validate_rut (py "0") = Ok true <-> RutSpec.ends_in_check_digit (py "0")).
Proof.
  intros [_ H].
  assert (E : validate_rut (py "0") = Ok true).
  { apply H. exists (py "0"). split; reflexivity. }
  discriminate E.
Qed.

(** C2, amended: [validate_rut] always returns, and it returns true
    exactly when the cleaned input has at least two characters, all of
    them but the last are digits, and it ends in the check digit
    computed over all but its last character. *)
Theorem validate_rut_iff (raw : pystr) :
  (exists b, validate_rut raw = Ok b)
  /\ (validate_rut raw = Ok true <->
      (2 <= length (_clean_rut raw))%nat
      /\ isdigit (slice_to_neg 1 (_clean_rut raw)) = true
      /\ RutSpec.ends_in_check_digit raw).
Proof.
  unfold validate_rut, RutSpec.ends_in_check_digit.
  set (c := _clean_rut raw).
  destruct (length c <? 2)%nat eqn:L.
  { apply Nat.ltb_lt in L. cbn [orb]. split; [now exists false|].
    split; [discriminate | intros [H _]; lia]. }
  apply Nat.ltb_ge in L.
  destruct (isdigit (slice_to_neg 1 c)) eqn:D; cbn [orb negb].
  2:{ split; [now exists false|].
      split; [discriminate | intros [_ [H _]]; discriminate]. }
  rewrite (calc_dv_digits _ (isdigit_forallb _ D)). cbn [bind].
  assert (E : forall dv, length dv = 1%nat ->
              endswith c dv = str_eqb dv (slice_from_neg 1 c)).
  { intros dv Hdv. unfold endswith. rewrite Hdv.
    replace (1 <=? length c)%nat with true
      by (symmetry; apply Nat.leb_le; lia).
    rewrite andb_true_r. apply str_eqb_sym. }
  split; [eexists; reflexivity|].
  split.
  - intros H. injection H as H. split; [exact L|]. split; [reflexivity|].
    eexists. split; [reflexivity|].
    now rewrite E by apply check_digit_length.
  - intros [_ [_ [dv [H1 H2]]]]. injection H1 as <-.
    rewrite E in H2 by apply check_digit_length. now rewrite H2.
Qed.

(** ** Annotation of the last page *)

Section Annotation.
Context {F : Fitz}.


Lemma insertar_dato_campo_absent pagina etiqueta texto ox oy :
  search_for pagina etiqueta = [] ->
  Pdf.insertar_dato_campo pagina etiqueta texto ox oy = pagina.
Proof. intros Hs. unfold Pdf.insertar_dato_campo. now rewrite Hs. Qed.

Lemma insertar_dato_campo_empty pagina etiqueta ox oy :
  Pdf.insertar_dato_campo pagina etiqueta [] ox oy = pagina.
Proof.
  unfold Pdf.insertar_dato_campo. now destruct (search_for pagina etiqueta).
Qed.

Lemma insertar_firma_absent pagina img fw :
  search_for pagina (py "Firma") = [] ->
  Pdf.insertar_firma pagina img fw = Ok pagina.
Proof. intros Hs. unfold Pdf.insertar_firma. now rewrite Hs. Qed.

Lemma insertar_observacion_absent pagina obs :
  search_for pagina (py "CEDIBLE") = [] ->
  Pdf.insertar_observacion pagina obs = pagina.
Proof. intros Hs. unfold Pdf.insertar_observacion. now rewrite Hs. Qed.

Lemma insertar_observacion_blank pagina obs :
  strip obs = [] -> Pdf.insertar_observacion pagina obs = pagina.
Proof.
  intros Hs. unfold Pdf.insertar_observacion. rewrite Hs.
  now destruct (search_for pagina (py "CEDIBLE")).
Qed.


(** C6: a field write whose label is absent or whose text is empty, a
    signature overlay whose label is absent, and an observation block
    whose label is absent or whose trimmed text is empty, each leave the
    page as it was.  The rest of the annotation still runs: for each of
    "Nombre:", "Recinto:", "RUT:", "Fecha:", "Firma" and "CEDIBLE", when
    the label is absent at the moment it is searched for (or the text of
    the step is empty), the annotated page is what the other steps, in
    their order, make of the page. *)
Theorem missing_anchor_is_noop (pagina : Page) :
  (forall etiqueta texto ox oy,
     search_for pagina etiqueta = [] ->
     Pdf.insertar_dato_campo pagina etiqueta texto ox oy = pagina)
  /\ (forall etiqueta ox oy,
        Pdf.insertar_dato_campo pagina etiqueta [] ox oy = pagina)
  /\ (forall img fw,
        search_for pagina (py "Firma") = [] ->
        Pdf.insertar_firma pagina img fw = Ok pagina)
  /\ (forall obs,
        search_for pagina (py "CEDIBLE") = [] ->
        Pdf.insertar_observacion pagina obs = pagina)
  /\ (forall obs,
        strip obs = [] -> Pdf.insertar_observacion pagina obs = pagina)
  /\ (forall img nombre recinto fecha_str rut obs fw,
        search_for pagina (py "Nombre:") = [] ->
        Pdf.anotar_pagina pagina img nombre recinto fecha_str rut obs fw
        = (pg <- Pdf.insertar_firma
                 (Pdf.insertar_dato_campo
                    (Pdf.insertar_dato_campo
                       (Pdf.insertar_dato_campo
                          pagina
                          (py "Recinto:") recinto 15 7)
                       (py "RUT:") rut 5 4)
                    (py "Fecha:") fecha_str 20 8)
                 img fw ;;
         Ok (Pdf.insertar_observacion pg obs)))
  /\ (forall img nombre recinto fecha_str rut obs fw,
        search_for
          (Pdf.insertar_dato_campo
             pagina
             (py "Nombre:") nombre 15 4)
          (py "Recinto:") = [] ->
        Pdf.anotar_pagina pagina img nombre recinto fecha_str rut obs fw
        = (pg <- Pdf.insertar_firma
                 (Pdf.insertar_dato_campo
                    (Pdf.insertar_dato_campo
                       (Pdf.insertar_dato_campo
                          pagina
                          (py "Nombre:") nombre 15 4)
                       (py "RUT:") rut 5 4)
                    (py "Fecha:") fecha_str 20 8)
                 img fw ;;
         Ok (Pdf.insertar_observacion pg obs)))
  /\ (forall img nombre recinto fecha_str rut obs fw,
        search_for
          (Pdf.insertar_dato_campo
             (Pdf.insertar_dato_campo
                pagina
                (py "Nombre:") nombre 15 4)
             (py "Recinto:") recinto 15 7)
          (py "RUT:") = [] ->
        Pdf.anotar_pagina pagina img nombre recinto fecha_str rut obs fw
        = (pg <- Pdf.insertar_firma
                 (Pdf.insertar_dato_campo
                    (Pdf.insertar_dato_campo
                       (Pdf.insertar_dato_campo
                          pagina
                          (py "Nombre:") nombre 15 4)
                       (py "Recinto:") recinto 15 7)
                    (py "Fecha:") fecha_str 20 8)
                 img fw ;;
         Ok (Pdf.insertar_observacion pg obs)))
  /\ (forall img nombre recinto fecha_str rut obs fw,
        search_for
          (Pdf.insertar_dato_campo
             (Pdf.insertar_dato_campo
                (Pdf.insertar_dato_campo
                   pagina
                   (py "Nombre:") nombre 15 4)
                (py "Recinto:") recinto 15 7)
             (py "RUT:") rut 5 4)
          (py "Fecha:") = [] ->
        Pdf.anotar_pagina pagina img nombre recinto fecha_str rut obs fw
        = (pg <- Pdf.insertar_firma
                 (Pdf.insertar_dato_campo
                    (Pdf.insertar_dato_campo
                       (Pdf.insertar_dato_campo
                          pagina
                          (py "Nombre:") nombre 15 4)
                       (py "Recinto:") recinto 15 7)
                    (py "RUT:") rut 5 4)
                 img fw ;;
         Ok (Pdf.insertar_observacion pg obs)))
  /\ (forall img nombre recinto fecha_str rut obs fw,
        search_for (Pdf.insertar_campos pagina nombre recinto fecha_str rut)
                   (py "Firma") = [] ->
        Pdf.anotar_pagina pagina img nombre recinto fecha_str rut obs fw
        = Ok (Pdf.insertar_observacion
                (Pdf.insertar_campos pagina nombre recinto fecha_str rut) obs))
  /\ (forall img nombre recinto fecha_str rut obs fw pg,
        Pdf.insertar_firma
          (Pdf.insertar_campos pagina nombre recinto fecha_str rut) img fw
        = Ok pg ->
        search_for pg (py "CEDIBLE") = [] ->
        Pdf.anotar_pagina pagina img nombre recinto fecha_str rut obs fw = Ok pg)
  /\ (forall img nombre recinto fecha_str rut obs fw,
        strip obs = [] ->
        Pdf.anotar_pagina pagina img nombre recinto fecha_str rut obs fw
        = Pdf.insertar_firma
            (Pdf.insertar_campos pagina nombre recinto fecha_str rut) img fw)
  /\ (forall img recinto fecha_str rut obs fw,
        Pdf.anotar_pagina pagina img [] recinto fecha_str rut obs fw
        = (pg <- Pdf.insertar_firma
                 (Pdf.insertar_dato_campo
                    (Pdf.insertar_dato_campo
                       (Pdf.insertar_dato_campo
                          pagina
                          (py "Recinto:") recinto 15 7)
                       (py "RUT:") rut 5 4)
                    (py "Fecha:") fecha_str 20 8)
                 img fw ;;
         Ok (Pdf.insertar_observacion pg obs)))
  /\ (forall img nombre fecha_str rut obs fw,
        Pdf.anotar_pagina pagina img nombre [] fecha_str rut obs fw
        = (pg <- Pdf.insertar_firma
                 (Pdf.insertar_dato_campo
                    (Pdf.insertar_dato_campo
                       (Pdf.insertar_dato_campo
                          pagina
                          (py "Nombre:") nombre 15 4)
                       (py "RUT:") rut 5 4)
                    (py "Fecha:") fecha_str 20 8)
                 img fw ;;
         Ok (Pdf.insertar_observacion pg obs)))
  /\ (forall img nombre recinto fecha_str obs fw,
        Pdf.anotar_pagina pagina img nombre recinto fecha_str [] obs fw
        = (pg <- Pdf.insertar_firma
                 (Pdf.insertar_dato_campo
                    (Pdf.insertar_dato_campo
                       (Pdf.insertar_dato_campo
                          pagina
                          (py "Nombre:") nombre 15 4)
                       (py "Recinto:") recinto 15 7)
                    (py "Fecha:") fecha_str 20 8)
                 img fw ;;
         Ok (Pdf.insertar_observacion pg obs)))
  /\ (forall img nombre recinto rut obs fw,
        Pdf.anotar_pagina pagina img nombre recinto [] rut obs fw
        = (pg <- Pdf.insertar_firma
                 (Pdf.insertar_dato_campo
                    (Pdf.insertar_dato_campo
                       (Pdf.insertar_dato_campo
                          pagina
                          (py "Nombre:") nombre 15 4)
                       (py "Recinto:") recinto 15 7)
                    (py "RUT:") rut 5 4)
                 img fw ;;
         Ok (Pdf.insertar_observacion pg obs))).
Proof.
  split; [intros; now apply insertar_dato_campo_absent|].
  split; [intros; apply insertar_dato_campo_empty|].
  split; [intros; now apply insertar_firma_absent|].
  split; [intros; now apply insertar_observacion_absent|].
  split; [intros; now apply insertar_observacion_blank|].
  unfold Pdf.anotar_pagina, Pdf.insertar_campos.
  repeat split; intros.
  - now rewrite (insertar_dato_campo_absent pagina (py "Nombre:")).
  - now rewrite (insertar_dato_campo_absent _ (py "Recinto:")).
  - now rewrite (insertar_dato_campo_absent _ (py "RUT:")).
  - now rewrite (insertar_dato_campo_absent _ (py "Fecha:")).
  - now rewrite insertar_firma_absent.
  - match goal with H : Pdf.insertar_firma _ _ _ = Ok _ |- _ => rewrite H end.
    cbn [bind]. now rewrite insertar_observacion_absent.
  - destruct (Pdf.insertar_firma _ img fw) as [pg|e]; [|reflexivity].
    cbn [bind]. now rewrite insertar_observacion_blank.
  - now rewrite (insertar_dato_campo_empty pagina (py "Nombre:")).
  - now rewrite (insertar_dato_campo_empty _ (py "Recinto:")).
  - now rewrite (insertar_dato_campo_empty _ (py "RUT:")).
  - now rewrite (insertar_dato_campo_empty _ (py "Fecha:")).
Qed.

Lemma set_page_length doc : forall i pg,
  length (Pdf.set_page doc i pg) = length doc.
Proof.
  induction doc as [|p doc IH]; intros [|i] pg; simpl; auto.
Qed.

Lemma set_page_other doc : forall i j pg,
  j <> i -> nth_error (Pdf.set_page doc i pg) j = nth_error doc j.
Proof.
  induction doc as [|p doc IH]; intros [|i] [|j] pg H; simpl; auto;
    congruence.
Qed.

Lemma set_page_same doc : forall i pg,
  (i < length doc)%nat -> nth_error (Pdf.set_page doc i pg) i = Some pg.
Proof.
  induction doc as [|p doc IH]; intros [|i] pg H; simpl in *; try lia; auto.
  apply IH. lia.
Qed.

(** C7: the annotation changes the last page only.  When the document
    decodes to [doc] and the work on its last page succeeds with
    [pagina'], the output is the saved document whose pages are those of
    [doc] with the last one replaced by [pagina']: same number of pages,
    and every page but the last is the page of the input. *)
Theorem only_last_page_mutated
  (pdf_bytes : Buffer) (firma_img : Image)
  (nombre recinto fecha_str rut observacion : pystr) (firma_width : Z)
  (doc : list Page) (pagina pagina' : Page) :
  fitz_open pdf_bytes = Ok doc ->
  nth_error doc (length doc - 1) = Some pagina ->
  Pdf.anotar_pagina pagina firma_img nombre recinto fecha_str rut
                    observacion firma_width = Ok pagina' ->
  exists doc',
    Pdf.insertar_firma_y_texto_en_pdf pdf_bytes firma_img nombre recinto
      fecha_str rut observacion firma_width = Ok (doc_save doc')
    /\ length doc' = length doc
    /\ nth_error doc' (length doc - 1) = Some pagina'
    /\ forall i, (i < length doc - 1)%nat -> nth_error doc' i = nth_error doc i.
Proof.
  intros Ho Hn Ha.
  exists (Pdf.set_page doc (length doc - 1) pagina').
  assert (Hne : doc <> []) by (intros ->; discriminate Hn).
  repeat split.
  - unfold Pdf.insertar_firma_y_texto_en_pdf. rewrite Ho. cbn [bind].
    unfold Pdf.last_index. destruct doc as [|p doc]; [congruence|].
    cbn [bind]. rewrite Hn, Ha. reflexivity.
  - apply set_page_length.
  - apply set_page_same. destruct doc; [congruence | simpl; lia].
  - intros i Hi. apply set_page_other. lia.
Qed.

(** C8: when "Firma" is found and the raster has size w x h (w not 0),
    the image is placed in the rectangle with origin
    (box.x0 + 10, box.y0 - 20), extending firma_width to the right and
    h * (firma_width / w) downwards; a 200 x 100 raster at width 120 is
    placed with height 60. *)
Theorem signature_rectangle
  (pagina : Page) (firma_img : Image) (firma_width w h : Z)
  (rect : Rect) (rest : list Rect) (img_bytes : Buffer) :
  search_for pagina (py "Firma") = rect :: rest ->
  save_png firma_img = Ok img_bytes ->
  open_rgba_size img_bytes = Ok (w, h) ->
  w <> 0%Z ->
  Pdf.insertar_firma pagina firma_img firma_width
  = Ok (insert_image pagina
          (mkRect (x0 rect + float_of_int 10)%float
                  (y0 rect - float_of_int 20)%float
                  (x0 rect + float_of_int 10 + float_of_int firma_width)%float
                  (y0 rect - float_of_int 20
                   + float_of_int h
                     * (float_of_int firma_width / float_of_int w))%float)
          img_bytes)
  /\ (float_of_int 100 * (float_of_int 120 / float_of_int 200))%float
     = float_of_int 60.
Proof.
  intros Hs Hp Hz Hw. split; [|reflexivity].
  unfold Pdf.insertar_firma. rewrite Hs, Hp. cbn [bind]. rewrite Hz.
  cbn [bind]. unfold int_truediv.
  destruct (w =? 0)%Z eqn:E; [apply Z.eqb_eq in E; contradiction|].
  reflexivity.
Qed.

End Annotation.

(** The annotation of the sample invoice page, as drawing operations. *)
Example anotar_factura :
  option_map Mock.drawn
    (match Pdf.anotar_pagina Mock.factura Mock.firma (py "Ana") (py "Local 2")
             (py "04-11-2026") (py "12.345.678-5") (py " ok ") 120 with
     | Ok pg => Some pg
     | Raise _ => None
     end)
  = Some
      [ Mock.OpText (float_of_int 95, float_of_int 604) (py "Ana") 11
                    Pdf.helv Pdf.negro;
        Mock.OpText (float_of_int 100, float_of_int 627) (py "Local 2") 11
                    Pdf.helv Pdf.negro;
        Mock.OpText (float_of_int 70, float_of_int 644) (py "12.345.678-5") 11
                    Pdf.helv Pdf.negro;
        Mock.OpText (float_of_int 355, float_of_int 648) (py "04-11-2026") 11
                    Pdf.helv Pdf.negro;
        Mock.OpImage (Mock.box 410 680 530 740) 200 100;
        Mock.OpText (float_of_int 128, float_of_int 767) Pdf.texto_label 11
                    Pdf.helv Pdf.negro;
        Mock.OpRect (Mock.box 204 762 484 807) Pdf.negro 0.5%float;
        Mock.OpTextbox (Mock.box 204 762 484 807) (py "ok") 10 Pdf.helv 0
                       Pdf.negro ].
Proof. reflexivity. Qed.


Lemma missing_anchor_is_noop_witness :
  search_for Mock.portada (py "RUT:") = []
  /\ Pdf.insertar_dato_campo Mock.portada (py "RUT:") (py "1-9") 5 4
     = Mock.portada
  /\ Pdf.insertar_firma Mock.portada Mock.firma 120 = Ok Mock.portada
  /\ Pdf.insertar_observacion Mock.portada (py "ok") = Mock.portada
  /\ search_for MockPaginas.sin_nombre (py "Nombre:") = []
  /\ option_map Mock.drawn
       (match Pdf.anotar_pagina MockPaginas.sin_nombre Mock.firma (py "Ana")
                (py "Local 2") (py "04-11-2026") (py "12.345.678-5")
                (py " ok ") 120 with
        | Ok pg => Some pg
        | Raise _ => None
        end)
     = Some
         [ Mock.OpText (float_of_int 100, float_of_int 627) (py "Local 2") 11
                       Pdf.helv Pdf.negro;
           Mock.OpText (float_of_int 70, float_of_int 644) (py "12.345.678-5")
                       11 Pdf.helv Pdf.negro;
           Mock.OpText (float_of_int 355, float_of_int 648) (py "04-11-2026")
                       11 Pdf.helv Pdf.negro;
           Mock.OpImage (Mock.box 410 680 530 740) 200 100;
           Mock.OpText (float_of_int 128, float_of_int 767) Pdf.texto_label 11
                       Pdf.helv Pdf.negro;
           Mock.OpRect (Mock.box 204 762 484 807) Pdf.negro 0.5%float;
           Mock.OpTextbox (Mock.box 204 762 484 807) (py "ok") 10 Pdf.helv 0
                          Pdf.negro ]
  /\ option_map Mock.drawn
       (match Pdf.anotar_pagina MockPaginas.sin_cedible Mock.firma (py "Ana")
                (py "Local 2") (py "04-11-2026") (py "12.345.678-5")
                (py " ok ") 120 with
        | Ok pg => Some pg
        | Raise _ => None
        end)
     = Some
         [ Mock.OpText (float_of_int 95, float_of_int 604) (py "Ana") 11
                       Pdf.helv Pdf.negro;
           Mock.OpText (float_of_int 100, float_of_int 627) (py "Local 2") 11
                       Pdf.helv Pdf.negro;
           Mock.OpText (float_of_int 70, float_of_int 644) (py "12.345.678-5")
                       11 Pdf.helv Pdf.negro;
           Mock.OpText (float_of_int 355, float_of_int 648) (py "04-11-2026")
                       11 Pdf.helv Pdf.negro;
           Mock.OpImage (Mock.box 410 680 530 740) 200 100 ].
Proof.
  destruct (missing_anchor_is_noop (F := Mock.fitz) Mock.portada)
    as (H1 & _ & H3 & H4 & _).
  destruct (missing_anchor_is_noop (F := Mock.fitz) MockPaginas.sin_nombre)
    as (_ & _ & _ & _ & _ & HN & _).
  destruct (missing_anchor_is_noop (F := Mock.fitz) MockPaginas.sin_cedible)
    as (_ & _ & _ & _ & _ & _ & _ & _ & _ & _ & HC & _).
  split; [reflexivity|].
  split; [apply H1; reflexivity|].
  split; [apply H3; reflexivity|].
  split; [apply H4; reflexivity|].
  split; [reflexivity|].
  split.
  - rewrite (HN Mock.firma (py "Ana") (py "Local 2") (py "04-11-2026")
               (py "12.345.678-5") (py " ok ") 120%Z eq_refl).
    reflexivity.
  - erewrite (HC Mock.firma (py "Ana") (py "Local 2") (py "04-11-2026")
                (py "12.345.678-5") (py " ok ") 120%Z);
      cycle 1; [reflexivity | reflexivity | reflexivity].
Defined.

Lemma only_last_page_mutated_witness :
  exists pagina',
    Pdf.anotar_pagina Mock.factura Mock.firma (py "Ana") (py "Local 2")
      (py "04-11-2026") (py "12.345.678-5") (py "ok") 120 = Ok pagina'
    /\ exists doc',
         Pdf.insertar_firma_y_texto_en_pdf
           (Mock.PdfBytes [Mock.portada; Mock.factura]) Mock.firma (py "Ana")
           (py "Local 2") (py "04-11-2026") (py "12.345.678-5") (py "ok") 120
         = Ok (doc_save doc')
         /\ length doc' = 2%nat
         /\ nth_error doc' 1 = Some pagina'
         /\ forall i, (i < 1)%nat ->
              nth_error doc' i = nth_error [Mock.portada; Mock.factura] i.
Proof.
  eexists. split; [reflexivity|].
  apply (only_last_page_mutated (F := Mock.fitz)
           (Mock.PdfBytes [Mock.portada; Mock.factura]) Mock.firma (py "Ana")
           (py "Local 2") (py "04-11-2026") (py "12.345.678-5") (py "ok") 120
           [Mock.portada; Mock.factura] Mock.factura);
    reflexivity.
Defined.

Lemma signature_rectangle_witness :
  search_for Mock.factura (py "Firma") = [Mock.box 400 700 430 712]
  /\ save_png Mock.firma = Ok (Mock.PngBytes 200 100)
  /\ open_rgba_size (Mock.PngBytes 200 100) = Ok (200, 100)%Z
  /\ 200%Z <> 0%Z
  /\ (Pdf.insertar_firma Mock.factura Mock.firma 120
      = Ok (insert_image Mock.factura
              (mkRect (x0 (Mock.box 400 700 430 712) + float_of_int 10)%float
                 (y0 (Mock.box 400 700 430 712) - float_of_int 20)%float
                 (x0 (Mock.box 400 700 430 712) + float_of_int 10
                  + float_of_int 120)%float
                 (y0 (Mock.box 400 700 430 712) - float_of_int 20
                  + float_of_int 100
                    * (float_of_int 120 / float_of_int 200))%float)
              (Mock.PngBytes 200 100))
      /\ (float_of_int 100 * (float_of_int 120 / float_of_int 200))%float
         = float_of_int 60).
Proof.
  split; [reflexivity|]. split; [reflexivity|]. split; [reflexivity|].
  split; [discriminate|].
  apply (signature_rectangle (F := Mock.fitz) Mock.factura Mock.firma 120
           200 100 (Mock.box 400 700 430 712) [] (Mock.PngBytes 200 100));
    [reflexivity | reflexivity | reflexivity | discriminate].
Defined.

(** ** The invoice-number pattern *)

Lemma space_not_digit c : is_space c = true -> is_ascii_digit c = false.
Proof.
  unfold is_space, is_ascii_digit. intros H.
  rewrite ?orb_true_iff, ?andb_true_iff, ?N.leb_le, ?N.eqb_eq in H.
  apply andb_false_iff. rewrite !N.leb_gt. lia.
Qed.

Lemma firstn_takewhile p : forall hi t,
  firstn (length (firstn hi (ScanSpec.takewhile p t))) t
  = firstn hi (ScanSpec.takewhile p t).
Proof.
  intros hi t. revert hi. induction t as [|c t IH]; intros [|hi]; simpl;
    try reflexivity.
  destruct (p c); simpl; [now rewrite IH | reflexivity].
Qed.

Lemma rep_greedy cls (f : pystr -> Re.Match) : forall hi lo s,
  Re.rep cls lo hi s (fun s' => Some (f s'))
  = if (lo <=? length (firstn hi (ScanSpec.takewhile cls s)))%nat
    then Some (f (skipn (length (firstn hi (ScanSpec.takewhile cls s))) s))
    else None.
Proof.
  induction hi as [|hi IH]; intros lo s.
  - simpl. destruct lo; reflexivity.
  - destruct s as [|c s].
    + simpl. destruct lo; reflexivity.
    + cbn [Re.rep ScanSpec.takewhile]. destruct (cls c).
      * rewrite IH. cbn [firstn length skipn].
        destruct lo as [|lo]; cbn [Nat.pred Nat.eqb Nat.leb].
        -- reflexivity.
        -- destruct (lo <=? _)%nat; reflexivity.
      * simpl. destruct lo; reflexivity.
Qed.

Lemma star_skip (k : pystr -> option Re.Match) :
  (forall c s, is_space c = true -> k (c :: s) = None) ->
  forall s, Re.star is_space s k = k (lstrip s).
Proof.
  intros Hk. induction s as [|c s IH]; [reflexivity|].
  simpl. destruct (is_space c) eqn:E; [|reflexivity].
  rewrite IH. destruct (k (lstrip s)) eqn:K; [reflexivity|].
  now apply Hk.
Qed.

Lemma numero_digit_run s g :
  Re.match_here true Pdf.numero_re s g Re.accept
  = option_map Re.with_group1 (ScanSpec.digit_run s).
Proof.
  unfold Pdf.numero_re. cbn [Re.match_here]. unfold Re.accept.
  rewrite star_skip.
  - rewrite (rep_greedy is_ascii_digit
               (fun s'' => {| Re.group1 :=
                   Some (firstn (length (lstrip s) - length s'') (lstrip s)) |})).
    unfold ScanSpec.digit_run.
    set (t := lstrip s).
    set (d := firstn 8 (ScanSpec.takewhile is_ascii_digit t)).
    destruct (5 <=? length d)%nat; [|reflexivity].
    cbn [option_map]. unfold Re.with_group1. do 3 f_equal.
    rewrite length_skipn.
    assert (Hd : firstn (length d) t = d) by apply firstn_takewhile.
    assert (Hl : (length d <= length t)%nat).
    { rewrite <- Hd at 1. rewrite length_firstn. lia. }
    replace (length t - (length t - length d))%nat with (length d) by lia.
    exact Hd.
  - intros c s0 Hc.
    rewrite (rep_greedy is_ascii_digit
               (fun s'' => {| Re.group1 :=
                   Some (firstn (length (c :: s0) - length s'') (c :: s0)) |})).
    cbn [ScanSpec.takewhile]. now rewrite (space_not_digit c Hc).
Qed.

Lemma tried_codes :
  ScanSpec.tried
  = [ [78; 186]; [78; 176]; [78; 111]; [78; 46; 111]; [78; 114; 111; 46];
      [78; 114; 111] ]%N.
Proof. reflexivity. Qed.

Lemma marcador_first_some s g (k : Re.cont) :
  Re.match_here true Pdf.marcador_re s g k
  = ScanSpec.first_some (fun r => k r g) s ScanSpec.tried.
Proof.
  rewrite tried_codes.
  unfold Pdf.marcador_re, ScanSpec.first_some, ScanSpec.try_marker.
  destruct s as [|a [|b [|c [|d s]]]];
    cbn [Re.match_here Re.lit_eqb ScanSpec.strip_prefix_ci];
    repeat match goal with
           | |- context [cp_eqb ?x ?y] => destruct (cp_eqb x y)
           end;
    try reflexivity;
    repeat match goal with
           | |- context [k ?r g] => destruct (k r g)
           end;
    reflexivity.
Qed.

Lemma patron_here s :
  Re.match_here true Pdf.patron_re s None Re.accept
  = option_map Re.with_group1 (ScanSpec.here s).
Proof.
  unfold Pdf.patron_re. cbn [Re.match_here].
  rewrite marcador_first_some.
  unfold ScanSpec.here, ScanSpec.tried, ScanSpec.first_some,
    ScanSpec.try_marker.
  repeat match goal with
         | |- context [ScanSpec.strip_prefix_ci ?mk s] =>
             destruct (ScanSpec.strip_prefix_ci mk s)
         end;
    rewrite ?numero_digit_run;
    repeat match goal with
           | |- context [ScanSpec.digit_run ?r] =>
               destruct (ScanSpec.digit_run r)
           end;
    reflexivity.
Qed.

Lemma search_here : forall text,
  match Pdf.patron_search text with
  | Some m =>
      exists i d,
        m = Re.with_group1 d
        /\ (i <= length text)%nat
        /\ ScanSpec.here (skipn i text) = Some d
        /\ forall j, (j < i)%nat -> ScanSpec.here (skipn j text) = None
  | None =>
      forall i, (i <= length text)%nat -> ScanSpec.here (skipn i text) = None
  end.
Proof.
  unfold Pdf.patron_search.
  induction text as [|c text IH]; cbn [Re.search]; rewrite patron_here.
  - destruct (ScanSpec.here []) as [d|] eqn:E; cbn [option_map].
    + exists 0%nat, d. repeat split; auto. intros j Hj. lia.
    + intros i Hi. now rewrite skipn_nil.
  - destruct (ScanSpec.here (c :: text)) as [d|] eqn:E; cbn [option_map].
    + exists 0%nat, d. repeat split; auto; [simpl; lia | intros j Hj; lia].
    + destruct (Re.search true Pdf.patron_re text) as [m|].
      * destruct IH as (i & d & Hm & Hi & Hd & Hj).
        exists (S i), d. repeat split; auto; [simpl; lia|].
        intros [|j] Hlt; [exact E | apply Hj; lia].
      * intros [|i] Hi; [exact E | apply IH; simpl in Hi; lia].
Qed.

Lemma strip_prefix_ci_spec mk : forall s r,
  ScanSpec.strip_prefix_ci mk s = Some r
  <-> exists m, s = m ++ r /\ lower m = lower mk.
Proof.
  induction mk as [|c mk IH]; intros s r.
  - simpl. split.
    + intros [= <-]. now exists [].
    + intros (m & Hs & Hm). apply map_eq_nil in Hm. now subst.
  - destruct s as [|x s]; cbn [ScanSpec.strip_prefix_ci].
    + split; [discriminate|]. intros (m & Hs & Hm).
      destruct m; [discriminate Hm | discriminate Hs].
    + unfold cp_eqb. destruct (N.eqb_spec (lower_cp c) (lower_cp x)) as [E|E].
      * rewrite IH. split.
        -- intros (m & -> & Hm). exists (x :: m). split; [reflexivity|].
           unfold lower in *. simpl. now rewrite E, Hm.
        -- intros (m & Hs & Hm). destruct m as [|y m]; [discriminate Hm|].
           injection Hs as -> ->. injection Hm as _ Hm. now exists m.
      * split; [discriminate|]. intros (m & Hs & Hm).
        destruct m as [|y m]; [discriminate Hm|].
        injection Hs as -> _. injection Hm as Hc _. congruence.
Qed.

Lemma takewhile_lstrip s : s = ScanSpec.takewhile is_space s ++ lstrip s.
Proof.
  induction s as [|c s IH]; [reflexivity|].
  simpl. destruct (is_space c); [simpl; now rewrite <- IH | reflexivity].
Qed.

Lemma forallb_takewhile p s : forallb p (ScanSpec.takewhile p s) = true.
Proof.
  induction s as [|c s IH]; [reflexivity|].
  simpl. destruct (p c) eqn:E; [simpl; now rewrite E | reflexivity].
Qed.

Lemma forallb_firstn (p : cp -> bool) n : forall l,
  forallb p l = true -> forallb p (firstn n l) = true.
Proof.
  induction n as [|n IH]; intros [|c l] H; try reflexivity.
  simpl in *. apply andb_prop in H as [H1 H2]. now rewrite H1, IH.
Qed.

Lemma takewhile_app p a b :
  forallb p a = true ->
  ScanSpec.takewhile p (a ++ b) = a ++ ScanSpec.takewhile p b.
Proof.
  induction a as [|c a IH]; intros H; [reflexivity|].
  simpl in *. apply andb_prop in H as [H1 H2]. now rewrite H1, IH.
Qed.

Lemma lstrip_app_spaces ws t :
  forallb is_space ws = true -> lstrip (ws ++ t) = lstrip t.
Proof.
  induction ws as [|c ws IH]; intros H; [reflexivity|].
  simpl in *. apply andb_prop in H as [H1 H2]. now rewrite H1, IH.
Qed.

Lemma lstrip_digit c t : is_ascii_digit c = true -> lstrip (c :: t) = c :: t.
Proof.
  intros H. simpl. destruct (is_space c) eqn:E; [|reflexivity].
  apply space_not_digit in E. congruence.
Qed.

Lemma digit_run_sound r d :
  ScanSpec.digit_run r = Some d ->
  exists ws rest,
    r = ws ++ d ++ rest
    /\ forallb is_space ws = true
    /\ forallb is_ascii_digit d = true
    /\ (5 <= length d <= 8)%nat.
Proof.
  unfold ScanSpec.digit_run.
  set (t := lstrip r).
  assert (Hd := firstn_takewhile is_ascii_digit 8 t).
  assert (Hf : forallb is_ascii_digit
                 (firstn 8 (ScanSpec.takewhile is_ascii_digit t)) = true)
    by apply forallb_firstn, forallb_takewhile.
  assert (H8 : (length (firstn 8 (ScanSpec.takewhile is_ascii_digit t)) <= 8)%nat)
    by (rewrite length_firstn; lia).
  revert Hd Hf H8.
  generalize (firstn 8 (ScanSpec.takewhile is_ascii_digit t)) as run.
  intros run Hd Hf H8.
  destruct (5 <=? length run)%nat eqn:L; [|discriminate].
  intros [= <-]. apply Nat.leb_le in L.
  exists (ScanSpec.takewhile is_space r), (skipn (length run) t).
  split; [|split; [apply forallb_takewhile | split; [exact Hf | lia]]].
  rewrite <- Hd at 1. rewrite firstn_skipn. apply takewhile_lstrip.
Qed.

Lemma digit_run_complete r ws d' rest :
  r = ws ++ d' ++ rest ->
  forallb is_space ws = true ->
  forallb is_ascii_digit d' = true ->
  (5 <= length d' <= 8)%nat ->
  exists d, ScanSpec.digit_run r = Some d /\ d' = firstn (length d') d.
Proof.
  intros -> Hws Hd Hl. unfold ScanSpec.digit_run.
  rewrite lstrip_app_spaces by assumption.
  destruct d' as [|x d']; [simpl in Hl; lia|].
  assert (Hx : is_ascii_digit x = true) by (simpl in Hd; now apply andb_prop in Hd).
  change ((x :: d') ++ rest) with (x :: (d' ++ rest)).
  rewrite lstrip_digit by assumption.
  change (x :: (d' ++ rest)) with ((x :: d') ++ rest).
  rewrite takewhile_app by assumption.
  set (run := (x :: d') ++ ScanSpec.takewhile is_ascii_digit rest).
  assert (Hrun : (length (x :: d') <= length run)%nat)
    by (unfold run; rewrite length_app; lia).
  replace (5 <=? length (firstn 8 run))%nat with true.
  2:{ symmetry. apply Nat.leb_le. rewrite length_firstn. lia. }
  eexists. split; [reflexivity|].
  rewrite firstn_firstn.
  replace (Nat.min (length (x :: d')) 8) with (length (x :: d')) by lia.
  unfold run. rewrite firstn_app, Nat.sub_diag, firstn_all. simpl.
  now rewrite app_nil_r.
Qed.

Lemma first_some_in {A : Type} (k : pystr -> option A) s d : forall mks,
  ScanSpec.first_some k s mks = Some d ->
  exists mk, In mk mks /\ ScanSpec.try_marker k mk s = Some d.
Proof.
  induction mks as [|mk mks IH]; [discriminate|].
  simpl. destruct (ScanSpec.try_marker k mk s) eqn:E.
  - intros [= <-]. exists mk. auto.
  - intros H. destruct (IH H) as (mk' & Hin & Hk). exists mk'. auto.
Qed.

Lemma tried_markers mk : In mk ScanSpec.tried <-> In mk ScanSpec.markers.
Proof. unfold ScanSpec.tried, ScanSpec.markers. simpl. tauto. Qed.

Lemma dot_no_run e s : 46%N = lower_cp e -> ScanSpec.digit_run (e :: s) = None.
Proof.
  unfold lower_cp. intros H.
  assert (e = 46%N) as ->.
  { destruct ((65 <=? e)%N && (e <=? 90)%N) eqn:U; [|congruence].
    apply andb_prop in U as [U _]. apply N.leb_le in U. lia. }
  reflexivity.
Qed.

Lemma here_unique s mk d :
  In mk ScanSpec.tried ->
  ScanSpec.try_marker ScanSpec.digit_run mk s = Some d ->
  ScanSpec.here s = Some d.
Proof.
  unfold ScanSpec.here. rewrite tried_codes.
  unfold ScanSpec.first_some, ScanSpec.try_marker.
  change (lower_cp 78) with 110%N.
  intros Hin.
  simpl in Hin. destruct Hin as [<-|[<-|[<-|[<-|[<-|[<-|[]]]]]]];
    destruct s as [|a [|b [|c [|e s]]]];
    cbn [ScanSpec.strip_prefix_ci]; unfold cp_eqb;
    change (lower_cp 78) with 110%N; change (lower_cp 186) with 186%N;
    change (lower_cp 176) with 176%N; change (lower_cp 111) with 111%N;
    change (lower_cp 46) with 46%N; change (lower_cp 114) with 114%N;
    try discriminate;
    repeat match goal with
           | |- context [N.eqb ?x ?y] =>
               destruct (N.eqb_spec x y); try discriminate; try congruence
           end;
    intros H; rewrite ?H; try reflexivity;
    try (rewrite dot_no_run in H by assumption; discriminate H);
    repeat match goal with
           | |- context [match ScanSpec.digit_run ?r with _ => _ end] =>
               destruct (ScanSpec.digit_run r) eqn:?
           end;
    try congruence.
Qed.

Lemma here_sound s d : ScanSpec.here s = Some d -> ScanSpec.match_here s d.
Proof.
  intros H. apply first_some_in in H as (mk & Hin & H).
  unfold ScanSpec.try_marker in H.
  destruct (ScanSpec.strip_prefix_ci mk s) as [r|] eqn:E; [|discriminate].
  apply strip_prefix_ci_spec in E as (m & -> & Hm).
  apply digit_run_sound in H as (ws & rest & -> & Hws & Hd & Hl).
  exists m, ws, rest. repeat split; auto; try lia.
  exists mk. split; [now apply tried_markers | exact Hm].
Qed.

Lemma here_complete s d' :
  ScanSpec.match_here s d' ->
  exists d, ScanSpec.here s = Some d /\ d' = firstn (length d') d.
Proof.
  intros (m & ws & rest & -> & (mk & Hin & Hm) & Hws & Hd & Hl).
  destruct (digit_run_complete (ws ++ d' ++ rest) ws d' rest eq_refl Hws Hd Hl)
    as (d & Hrun & Hpre).
  exists d. split; [|exact Hpre].
  apply here_unique with (mk := mk); [now apply tried_markers|].
  unfold ScanSpec.try_marker.
  replace (ScanSpec.strip_prefix_ci mk (m ++ ws ++ d' ++ rest))
    with (Some (ws ++ d' ++ rest)); [exact Hrun|].
  symmetry. apply strip_prefix_ci_spec. now exists m.
Qed.

Lemma here_digits s d :
  ScanSpec.here s = Some d ->
  forallb is_ascii_digit d = true /\ (5 <= length d <= 8)%nat.
Proof.
  intros H. apply here_sound in H as (m & ws & rest & _ & _ & _ & Hd & Hl).
  auto.
Qed.

Lemma prefix_same_length (d d0 : pystr) :
  d = firstn (length d) d0 -> (length d0 <= length d)%nat -> d = d0.
Proof.
  intros H L. rewrite H. apply firstn_all2. exact L.
Qed.

Lemma search_first_match text d :
  Pdf.patron_search text = Some (Re.with_group1 d)
  <-> ScanSpec.first_match text d.
Proof.
  assert (S := search_here text). split.
  - intros E. rewrite E in S.
    destruct S as (i & d0 & [= <-] & Hi & Hd & Hj).
    exists i. split; [split; [exact Hi | now apply here_sound]|]. split.
    + intros j d' Hlt [_ Hm]. apply here_complete in Hm as (d1 & H1 & _).
      rewrite (Hj j Hlt) in H1. discriminate.
    + intros d' [_ Hm]. apply here_complete in Hm as (d1 & H1 & Hp).
      rewrite Hd in H1. injection H1 as <-.
      rewrite Hp at 1. rewrite length_firstn. lia.
  - intros (i & [Hi Hm] & Hbefore & Hlongest).
    destruct (here_complete _ _ Hm) as (d1 & H1 & Hp).
    destruct (Pdf.patron_search text) as [m|].
    + destruct S as (i0 & d0 & -> & Hi0 & Hd0 & Hj0).
      destruct (Nat.lt_trichotomy i0 i) as [Hlt|[->|Hgt]].
      * exfalso. apply (Hbefore i0 d0 Hlt).
        split; [exact Hi0 | now apply here_sound].
      * rewrite Hd0 in H1. injection H1 as <-.
        assert (Hlen : (length d0 <= length d)%nat).
        { apply Hlongest. split; [exact Hi | now apply here_sound]. }
        now rewrite (prefix_same_length d d0 Hp Hlen).
      * rewrite (Hj0 i Hgt) in H1. discriminate.
    + rewrite (S i Hi) in H1. discriminate.
Qed.

Lemma search_no_match text :
  Pdf.patron_search text = None <-> ScanSpec.no_match text.
Proof.
  assert (S := search_here text). split.
  - intros E. rewrite E in S. intros i d [Hi Hm].
    apply here_complete in Hm as (d1 & H1 & _).
    rewrite (S i Hi) in H1. discriminate.
  - intros Hno. destruct (Pdf.patron_search text) as [m|]; [|reflexivity].
    destruct S as (i & d & _ & Hi & Hd & _).
    exfalso. apply (Hno i d). split; [exact Hi | now apply here_sound].
Qed.

Lemma search_group1 text m :
  Pdf.patron_search text = Some m ->
  exists d, m = Re.with_group1 d
            /\ forallb is_ascii_digit d = true /\ (5 <= length d <= 8)%nat.
Proof.
  intros E. assert (S := search_here text). rewrite E in S.
  destruct S as (i & d & -> & _ & Hd & _).
  exists d. split; [reflexivity | exact (here_digits _ _ Hd)].
Qed.

(** ** Invoice-number extraction *)

Section Extraction.
Context {F : Fitz}.

Lemma extraer_loop_none doc :
  (forall p, In p doc ->
     exists t, get_text p = Ok t /\ Pdf.patron_search t = None) ->
  Pdf.extraer_loop doc = Ok None.
Proof.
  induction doc as [|p doc IH]; intros H; [reflexivity|].
  destruct (H p (or_introl eq_refl)) as (t & Ht & Hs).
  cbn [Pdf.extraer_loop]. rewrite Ht. cbn [bind]. rewrite Hs.
  apply IH. intros q Hq. apply H. now right.
Qed.

Lemma extraer_loop_first pre pagina post texto m :
  (forall p, In p pre ->
     exists t, get_text p = Ok t /\ Pdf.patron_search t = None) ->
  get_text pagina = Ok texto ->
  Pdf.patron_search texto = Some m ->
  Pdf.extraer_loop (pre ++ pagina :: post) = Ok (Some (Re.group1 m)).
Proof.
  intros Hpre Ht Hs. induction pre as [|p pre IH].
  - cbn [app Pdf.extraer_loop]. rewrite Ht. cbn [bind]. now rewrite Hs.
  - destruct (Hpre p (or_introl eq_refl)) as (t & Hp & Hn).
    cbn [app Pdf.extraer_loop]. rewrite Hp. cbn [bind]. rewrite Hn.
    apply IH. intros q Hq. apply Hpre. now right.
Qed.

Lemma extraer_loop_result doc : forall v,
  Pdf.extraer_loop doc = Ok (Some v) ->
  exists d, v = Some d
            /\ forallb is_ascii_digit d = true /\ (5 <= length d <= 8)%nat.
Proof.
  induction doc as [|p doc IH]; intros v; [discriminate|].
  cbn [Pdf.extraer_loop]. destruct (get_text p) as [t|e]; [|discriminate].
  cbn [bind]. destruct (Pdf.patron_search t) as [m|] eqn:E; [|apply IH].
  intros [= <-]. apply search_group1 in E as (d & -> & Hd).
  exists d. auto.
Qed.

Lemma no_match_pages (pages : list Page) :
  (forall p, In p pages ->
     exists t, get_text p = Ok t /\ ScanSpec.no_match t) ->
  forall p, In p pages ->
    exists t, get_text p = Ok t /\ Pdf.patron_search t = None.
Proof.
  intros H p Hp. destruct (H p Hp) as (t & Ht & Hn).
  exists t. split; [exact Ht | now apply search_no_match].
Qed.

(** C4: the search returns the digit run of the first match of the
    pattern (a marker Nº, N°, No, N.o, Nro or Nro., case ignored, then
    optional whitespace, then 5 to 8 digits) and nothing when the text
    has no match; the extraction returns the run found on the first page
    that has a match, and None when no page has one. *)
Theorem extraer_numero_first_match (pdf_bytes : Buffer) :
  (forall texto d,
     Pdf.patron_search texto = Some (Re.with_group1 d)
     <-> ScanSpec.first_match texto d)
  /\ (forall texto, Pdf.patron_search texto = None <-> ScanSpec.no_match texto)
  /\ (forall texto,
        (forall pre m post, texto = pre ++ m ++ post -> ~ ScanSpec.is_marker m) ->
        Pdf.patron_search texto = None)
  /\ (forall pre pagina post texto d,
        fitz_open pdf_bytes = Ok (pre ++ pagina :: post) ->
        (forall p, In p pre ->
           exists t, get_text p = Ok t /\ ScanSpec.no_match t) ->
        get_text pagina = Ok texto ->
        ScanSpec.first_match texto d ->
        Pdf.extraer_numero_factura pdf_bytes = Ok (Some d))
  /\ (forall doc,
        fitz_open pdf_bytes = Ok doc ->
        (forall p, In p doc ->
           exists t, get_text p = Ok t /\ ScanSpec.no_match t) ->
        Pdf.extraer_numero_factura pdf_bytes = Ok None)
  /\ Pdf.patron_search (py "Factura N" ++ [186%N] ++ py " 123456 del mes")
     = Some (Re.with_group1 (py "123456"))
  /\ Pdf.patron_search (py "Guia Nro. 99999999")
     = Some (Re.with_group1 (py "99999999"))
  /\ Pdf.patron_search (py "Factura sin numero") = None.
Proof.
  split; [exact search_first_match|].
  split; [exact search_no_match|].
  split.
  { intros texto H. apply search_no_match.
    intros i d [Hi (m & ws & rest & Hs & Hm & _)].
    apply (H (firstn i texto) m (ws ++ d ++ rest)); [|exact Hm].
    rewrite <- Hs. symmetry. apply firstn_skipn. }
  split.
  { intros pre pagina post texto d Ho Hpre Ht Hm.
    apply search_first_match in Hm.
    unfold Pdf.extraer_numero_factura. rewrite Ho. cbn [bind].
    now rewrite (extraer_loop_first pre pagina post texto _
                   (no_match_pages pre Hpre) Ht Hm). }
  split.
  { intros doc Ho Hdoc.
    unfold Pdf.extraer_numero_factura. rewrite Ho. cbn [bind].
    now rewrite (extraer_loop_none doc (no_match_pages doc Hdoc)). }
  repeat split; reflexivity.
Qed.

(** C10: the extraction always returns, either None or a string of
    5 to 8 digits; a buffer that does not decode gives None, as does a
    document none of whose pages has a match, and as does a page whose
    text cannot be read. *)
Theorem extraer_numero_never_raises (pdf_bytes : Buffer) :
  (exists r,
     Pdf.extraer_numero_factura pdf_bytes = Ok r
     /\ (r = None
         \/ exists d, r = Some d /\ forallb is_ascii_digit d = true
                      /\ (5 <= length d <= 8)%nat))
  /\ (forall e,
        fitz_open pdf_bytes = Raise e ->
        Pdf.extraer_numero_factura pdf_bytes = Ok None)
  /\ (forall doc,
        fitz_open pdf_bytes = Ok doc ->
        (forall p, In p doc ->
           exists t, get_text p = Ok t /\ Pdf.patron_search t = None) ->
        Pdf.extraer_numero_factura pdf_bytes = Ok None)
  /\ (forall doc e,
        fitz_open pdf_bytes = Ok doc ->
        Pdf.extraer_loop doc = Raise e ->
        Pdf.extraer_numero_factura pdf_bytes = Ok None).
Proof.
  unfold Pdf.extraer_numero_factura. split; [|split; [|split]].
  - destruct (fitz_open pdf_bytes) as [doc|e]; cbn [bind].
    + destruct (Pdf.extraer_loop doc) as [[v|]|e] eqn:E.
      * exists v. split; [reflexivity|]. right.
        now apply extraer_loop_result with (doc := doc).
      * exists None. auto.
      * exists None. auto.
    + exists None. auto.
  - intros e Ho. now rewrite Ho.
  - intros doc Ho Hdoc. rewrite Ho. cbn [bind].
    now rewrite (extraer_loop_none doc Hdoc).
  - intros doc e Ho He. rewrite Ho. cbn [bind]. now rewrite He.
Qed.

End Extraction.

Example extraer_factura :
  Pdf.extraer_numero_factura (Mock.PdfBytes [Mock.portada; Mock.factura])
  = Ok (Some (py "123456")).
Proof. reflexivity. Qed.

Lemma extraer_numero_first_match_witness :
  fitz_open (Mock.PdfBytes [Mock.portada; Mock.factura])
  = Ok ([Mock.portada] ++ Mock.factura :: [])
  /\ Pdf.patron_search (Mock.texto Mock.portada) = None
  /\ Pdf.patron_search (Mock.texto Mock.factura)
     = Some (Re.with_group1 (py "123456"))
  /\ Pdf.extraer_numero_factura (Mock.PdfBytes [Mock.portada; Mock.factura])
     = Ok (Some (py "123456")).
Proof.
  destruct (extraer_numero_first_match (F := Mock.fitz)
              (Mock.PdfBytes [Mock.portada; Mock.factura]))
    as (Hfirst & Hnone & _ & Hpage & _).
  split; [reflexivity|]. split; [reflexivity|]. split; [reflexivity|].
  apply (Hpage [Mock.portada] Mock.factura [] (Mock.texto Mock.factura)).
  - reflexivity.
  - intros p [<-|[]]. exists (Mock.texto Mock.portada).
    split; [reflexivity|]. apply Hnone. reflexivity.
  - reflexivity.
  - apply Hfirst. reflexivity.
Defined.

Lemma extraer_numero_never_raises_witness :
  fitz_open Mock.Garbage = Raise (ExternalError 1)
  /\ Pdf.extraer_numero_factura Mock.Garbage = Ok None
  /\ Pdf.extraer_numero_factura (Mock.PdfBytes [Mock.portada]) = Ok None.
Proof.
  split; [reflexivity|]. split.
  - apply (extraer_numero_never_raises (F := Mock.fitz) Mock.Garbage)
      with (e := ExternalError 1). reflexivity.
  - destruct (extraer_numero_never_raises (F := Mock.fitz)
                (Mock.PdfBytes [Mock.portada])) as (_ & _ & H & _).
    apply (H [Mock.portada]); [reflexivity|].
    intros p [<-|[]]. exists (Mock.texto Mock.portada). split; reflexivity.
Defined.

(* ================================================================== *)
(** * Further properties of the code                                    *)
(* ================================================================== *)

(** ** What the check digit detects *)

Lemma weighted_sum_app l1 : forall i l2,
  RutSpec.weighted_sum i (l1 ++ l2)
  = (RutSpec.weighted_sum i l1
     + RutSpec.weighted_sum (i + length l1) l2)%Z.
Proof.
  induction l1 as [|d l1 IH]; intros i l2; simpl.
  - now rewrite Nat.add_0_r.
  - rewrite IH. replace (S i + length l1)%nat with (i + S (length l1))%nat by lia.
    lia.
Qed.

Lemma digit_value_range c :
  is_ascii_digit c = true -> (0 <= RutSpec.digit_value c <= 9)%Z.
Proof.
  unfold is_ascii_digit, RutSpec.digit_value. intros H.
  apply andb_prop in H as [H1 H2]. apply N.leb_le in H1, H2. lia.
Qed.

Lemma weight_range i : (2 <= RutSpec.weight i <= 7)%Z.
Proof.
  unfold RutSpec.weight.
  assert ((i mod 6 < 6)%nat) by (apply Nat.mod_upper_bound; lia). lia.
Qed.

Lemma weight_step i :
  (RutSpec.weight (S i) - RutSpec.weight i = 1
   \/ RutSpec.weight (S i) - RutSpec.weight i = -5)%Z.
Proof.
  rewrite <- weight_next. assert (H := weight_range i).
  destruct (RutSpec.weight i =? 7)%Z eqn:E.
  - apply Z.eqb_eq in E. lia.
  - lia.
Qed.

Lemma ok_inj {A : Type} (x y : A) : Ok x = Ok y -> x = y.
Proof. now intros [= ->]. Qed.

Lemma singleton_inj (x y : cp) : [x] = [y] -> x = y.
Proof. now intros [= ->]. Qed.

(** The check digit determines the weighted sum modulo 11. *)
Lemma check_digit_residue b1 b2 :
  RutSpec.check_digit b1 = RutSpec.check_digit b2 ->
  (RutSpec.weighted_sum 0 (map RutSpec.digit_value (rev b1)) mod 11
   = RutSpec.weighted_sum 0 (map RutSpec.digit_value (rev b2)) mod 11)%Z.
Proof.
  unfold RutSpec.check_digit, RutSpec.digit_char.
  set (s1 := RutSpec.weighted_sum 0 (map RutSpec.digit_value (rev b1))).
  set (s2 := RutSpec.weighted_sum 0 (map RutSpec.digit_value (rev b2))).
  assert (H1 : (0 <= s1 mod 11 < 11)%Z) by (apply Z.mod_pos_bound; lia).
  assert (H2 : (0 <= s2 mod 11 < 11)%Z) by (apply Z.mod_pos_bound; lia).
  change (py "0") with [48%N]. change (py "k") with [107%N].
  destruct (11 - s1 mod 11 =? 11)%Z eqn:A1;
    destruct (11 - s1 mod 11 =? 10)%Z eqn:B1;
    destruct (11 - s2 mod 11 =? 11)%Z eqn:A2;
    destruct (11 - s2 mod 11 =? 10)%Z eqn:B2;
    rewrite ?Z.eqb_eq, ?Z.eqb_neq in *; intros E;
    apply singleton_inj in E; lia.
Qed.

Lemma forallb_app_digits a b :
  forallb is_ascii_digit (a ++ b) = true
  <-> forallb is_ascii_digit a = true /\ forallb is_ascii_digit b = true.
Proof. rewrite forallb_app. apply andb_true_iff. Qed.

(** The weighted sum of a body, split around the digits at distance
    [length post] and beyond from its right end. *)
Lemma body_sum pre mid post :
  RutSpec.weighted_sum 0 (map RutSpec.digit_value (rev (pre ++ mid ++ post)))
  = (RutSpec.weighted_sum 0 (map RutSpec.digit_value (rev post))
     + RutSpec.weighted_sum (length post) (map RutSpec.digit_value (rev mid))
     + RutSpec.weighted_sum (length post + length mid)
         (map RutSpec.digit_value (rev pre)))%Z.
Proof.
  rewrite !rev_app_distr, !map_app, !weighted_sum_app.
  rewrite ?length_app, ?length_map, ?length_rev, ?Nat.add_0_l. lia.
Qed.

Lemma check_digit_char body :
  exists c, RutSpec.check_digit body = [c]
            /\ (is_ascii_digit c = true \/ c = 107%N).
Proof.
  unfold RutSpec.check_digit, RutSpec.digit_char.
  set (s := RutSpec.weighted_sum 0 (map RutSpec.digit_value (rev body))).
  assert (Hs : (0 <= s mod 11 < 11)%Z) by (apply Z.mod_pos_bound; lia).
  destruct (11 - s mod 11 =? 11)%Z eqn:A; [exists 48%N; auto|].
  destruct (11 - s mod 11 =? 10)%Z eqn:B; [exists 107%N; auto|].
  rewrite Z.eqb_neq in A, B.
  eexists. split; [reflexivity|]. left.
  unfold is_ascii_digit. apply andb_true_iff. rewrite !N.leb_le. lia.
Qed.

(** X1: on a body of digits [_calc_dv] returns exactly one character,
    a decimal digit or the lower-case letter k. *)
Theorem calc_dv_single_char (body : pystr) :
  forallb is_ascii_digit body = true ->
  exists c, _calc_dv body = Ok [c]
            /\ (is_ascii_digit c = true \/ c = 107%N).
Proof.
  intros H. rewrite (calc_dv_digits body H).
  destruct (check_digit_char body) as (c & -> & Hc). now exists c.
Qed.

Lemma calc_dv_single_char_witness :
  forallb is_ascii_digit (py "12345670") = true
  /\ exists c, _calc_dv (py "12345670") = Ok [c]
               /\ (is_ascii_digit c = true \/ c = 107%N).
Proof.
  split; [reflexivity | apply (calc_dv_single_char (py "12345670")); reflexivity].
Defined.

(** X2: replacing one digit of a body by a different digit always
    changes the check digit. *)
Theorem calc_dv_detects_substitution (pre post : pystr) (a b : cp) :
  forallb is_ascii_digit pre = true ->
  forallb is_ascii_digit post = true ->
  is_ascii_digit a = true ->
  is_ascii_digit b = true ->
  a <> b ->
  _calc_dv (pre ++ [a] ++ post) <> _calc_dv (pre ++ [b] ++ post).
Proof.
  intros Hpre Hpost Ha Hb Hab.
  rewrite !calc_dv_digits
    by (rewrite !forallb_app_digits; simpl; rewrite ?Ha, ?Hb; auto).
  intros E. apply ok_inj, check_digit_residue in E.
  rewrite !body_sum in E. simpl in E.
  assert (Hw := weight_range (length post)).
  assert (Da := digit_value_range a Ha). assert (Db := digit_value_range b Hb).
  assert (Hd : RutSpec.digit_value a <> RutSpec.digit_value b).
  { unfold RutSpec.digit_value. intros Heq. apply Hab. lia. }
  set (w := RutSpec.weight (length post)) in *.
  set (da := RutSpec.digit_value a) in *. set (db := RutSpec.digit_value b) in *.
  set (C := RutSpec.weighted_sum 0 (map RutSpec.digit_value (rev post))) in *.
  set (D := RutSpec.weighted_sum (length post + 1)
              (map RutSpec.digit_value (rev pre))) in *.
  assert (Hdiv : (((C + (da * w + 0) + D) - (C + (db * w + 0) + D)) mod 11 = 0)%Z).
  { rewrite Zminus_mod, E, Z.sub_diag. reflexivity. }
  apply Z.mod_divide in Hdiv; [|lia]. destruct Hdiv as [q Hq].
  assert (Hw' : (w = 2 \/ w = 3 \/ w = 4 \/ w = 5 \/ w = 6 \/ w = 7)%Z) by lia.
  destruct Hw' as [->|[->|[->|[->|[->| ->]]]]]; lia.
Qed.

Lemma calc_dv_detects_substitution_witness :
  _calc_dv (py "123" ++ py "4" ++ py "5678")
  <> _calc_dv (py "123" ++ py "9" ++ py "5678").
Proof.
  apply (calc_dv_detects_substitution (py "123") (py "5678") 52 57);
    try reflexivity. discriminate.
Defined.

(** X3: exchanging two adjacent, different digits of a body always
    changes the check digit. *)
Theorem calc_dv_detects_transposition (pre post : pystr) (a b : cp) :
  forallb is_ascii_digit pre = true ->
  forallb is_ascii_digit post = true ->
  is_ascii_digit a = true ->
  is_ascii_digit b = true ->
  a <> b ->
  _calc_dv (pre ++ [a; b] ++ post) <> _calc_dv (pre ++ [b; a] ++ post).
Proof.
  intros Hpre Hpost Ha Hb Hab.
  rewrite !calc_dv_digits
    by (rewrite !forallb_app_digits; simpl; rewrite ?Ha, ?Hb; auto).
  intros E. apply ok_inj, check_digit_residue in E.
  rewrite !body_sum in E. simpl in E.
  assert (Hw := weight_range (length post)).
  assert (Hs := weight_step (length post)).
  assert (Da := digit_value_range a Ha). assert (Db := digit_value_range b Hb).
  assert (Hd : RutSpec.digit_value a <> RutSpec.digit_value b).
  { unfold RutSpec.digit_value. intros Heq. apply Hab. lia. }
  set (w := RutSpec.weight (length post)) in *.
  set (w' := RutSpec.weight (S (length post))) in *.
  set (da := RutSpec.digit_value a) in *. set (db := RutSpec.digit_value b) in *.
  set (C := RutSpec.weighted_sum 0 (map RutSpec.digit_value (rev post))) in *.
  set (D := RutSpec.weighted_sum (length post + 2)
              (map RutSpec.digit_value (rev pre))) in *.
  assert (Hdiv : (((C + (db * w + (da * w' + 0)) + D)
                   - (C + (da * w + (db * w' + 0)) + D)) mod 11 = 0)%Z).
  { rewrite Zminus_mod, E, Z.sub_diag. reflexivity. }
  apply Z.mod_divide in Hdiv; [|lia]. destruct Hdiv as [q Hq].
  destruct Hs as [Hs|Hs]; replace w' with (w + (w' - w))%Z in Hq by lia;
    rewrite Hs in Hq; lia.
Qed.

Lemma calc_dv_detects_transposition_witness :
  _calc_dv (py "123" ++ py "45" ++ py "678")
  <> _calc_dv (py "123" ++ py "54" ++ py "678").
Proof.
  apply (calc_dv_detects_transposition (py "123") (py "678") 52 53);
    try reflexivity. discriminate.
Defined.

(** ** Cleaning, formatting and validation together *)

Lemma rut_char_cases c :
  is_ascii_digit c = true \/ c = 107%N ->
  in_rut_class c = true /\ lower_cp c = c.
Proof.
  unfold in_rut_class, is_ascii_digit, lower_cp, cp_eqb.
  intros [H| ->]; [|split; reflexivity].
  rewrite H. split; [reflexivity|].
  apply andb_prop in H as [H1 H2]. apply N.leb_le in H1, H2.
  destruct ((65 <=? c)%N && (c <=? 90)%N) eqn:U; [|reflexivity].
  apply andb_prop in U as [U _]. apply N.leb_le in U. lia.
Qed.

Lemma in_rut_class_lower_char c :
  in_rut_class c = true ->
  is_ascii_digit (lower_cp c) = true \/ lower_cp c = 107%N.
Proof.
  unfold in_rut_class, is_ascii_digit, lower_cp, cp_eqb. intros H.
  apply orb_prop in H as [H|H]; [apply orb_prop in H as [H|H]|].
  - left. apply andb_prop in H as [H1 H2]. apply N.leb_le in H1, H2.
    destruct ((65 <=? c)%N && (c <=? 90)%N) eqn:U.
    + apply andb_prop in U as [U _]. apply N.leb_le in U. lia.
    + apply andb_true_iff. rewrite !N.leb_le. lia.
  - apply N.eqb_eq in H. subst c. now right.
  - apply N.eqb_eq in H. subst c. now right.
Qed.

Lemma clean_rut_chars c s :
  In c (_clean_rut s) -> is_ascii_digit c = true \/ c = 107%N.
Proof.
  unfold _clean_rut, lower. intros H.
  apply in_map_iff in H as (x & <- & Hx).
  apply filter_In in Hx as [_ Hx]. now apply in_rut_class_lower_char.
Qed.

Lemma clean_rut_fixed s :
  (forall c, In c s -> is_ascii_digit c = true \/ c = 107%N) ->
  _clean_rut s = s.
Proof.
  unfold _clean_rut, lower. induction s as [|c s IH]; intros H; [reflexivity|].
  destruct (rut_char_cases c (H c (or_introl eq_refl))) as [H1 H2].
  simpl. rewrite H1. simpl. rewrite H2, IH; [reflexivity|].
  intros x Hx. apply H. now right.
Qed.

Lemma str_eqb_eq a : forall b, str_eqb a b = true <-> a = b.
Proof.
  induction a as [|x a IH]; destruct b as [|y b]; simpl;
    try (split; [discriminate | discriminate]); [tauto|].
  unfold cp_eqb. rewrite andb_true_iff, N.eqb_eq, IH.
  split; [intros [-> ->]; reflexivity | intros [= -> ->]; auto].
Qed.

(** X4: a cleaned value is made of decimal digits and lower-case k
    only, cleaning it again changes nothing, and cleaning never makes a
    value longer. *)
Theorem clean_rut_alphabet (raw : pystr) :
  forallb (fun c => is_ascii_digit c || cp_eqb c 107%N) (_clean_rut raw) = true
  /\ _clean_rut (_clean_rut raw) = _clean_rut raw
  /\ (length (_clean_rut raw) <= length raw)%nat.
Proof.
  split; [|split].
  - apply forallb_forall. intros c Hc.
    destruct (clean_rut_chars c raw Hc) as [H| ->]; [now rewrite H | reflexivity].
  - apply clean_rut_idem.
  - unfold _clean_rut, lower. rewrite length_map. apply filter_length_le.
Qed.

(** X5: validation sees its argument through [_clean_rut] only, so the
    formatted value validates exactly when the raw value does, and so
    does the cleaned value; formatting the cleaned value is formatting
    the raw one. *)
Theorem validate_rut_after_format (raw : pystr) :
  validate_rut (format_rut raw) = validate_rut raw
  /\ validate_rut (_clean_rut raw) = validate_rut raw
  /\ format_rut (_clean_rut raw) = format_rut raw.
Proof.
  split; [|split].
  - unfold validate_rut. now rewrite clean_format_rut.
  - unfold validate_rut. now rewrite clean_rut_idem.
  - unfold format_rut. now rewrite clean_rut_idem.
Qed.

(** X7: cleaning a formatted value gives the cleaned input back: the
    separators that [format_rut] adds are the only thing it changes. *)
Theorem clean_rut_format_rut (raw : pystr) :
  _clean_rut (format_rut raw) = _clean_rut raw.
Proof.
  rewrite format_rut_unfold.
  destruct (length (_clean_rut raw) <? 2)%nat; [apply clean_rut_idem|].
  destruct (negb (isdigit (slice_to_neg 1 (_clean_rut raw))));
    [apply clean_rut_idem|].
  rewrite !clean_rut_app, clean_rut_dots.
  change (_clean_rut (py "-")) with (@nil cp). cbn [app].
  rewrite <- clean_rut_app.
  unfold slice_to_neg, slice_from_neg. rewrite firstn_skipn.
  apply clean_rut_idem.
Qed.

Lemma digits_clean body :
  forallb is_ascii_digit body = true -> _clean_rut body = body.
Proof.
  intros H. apply clean_rut_fixed. intros c Hc. left.
  rewrite forallb_forall in H. now apply H.
Qed.

Lemma validate_rut_body_char body c :
  isdigit body = true ->
  in_rut_class c = true ->
  validate_rut (body ++ [c])
  = Ok (str_eqb (RutSpec.check_digit body) [lower_cp c]).
Proof.
  intros Hb Hc. assert (Hd := isdigit_forallb body Hb).
  unfold validate_rut.
  rewrite clean_rut_app, (digits_clean body Hd).
  replace (_clean_rut [c]) with [lower_cp c]
    by (unfold _clean_rut, lower; simpl; now rewrite Hc).
  assert (Hl : (1 <= length body)%nat).
  { unfold isdigit in Hb. apply andb_prop in Hb as [Hb _].
    destruct body; [discriminate | simpl; lia]. }
  replace (length (body ++ [lower_cp c]) <? 2)%nat with false
    by (symmetry; apply Nat.ltb_ge; rewrite length_app; simpl; lia).
  unfold slice_to_neg, slice_from_neg.
  replace (length (body ++ [lower_cp c]) - 1)%nat with (length body)
    by (rewrite length_app; simpl; lia).
  rewrite firstn_app, Nat.sub_diag, firstn_all. cbn [firstn].
  rewrite skipn_app, Nat.sub_diag, skipn_all. cbn [skipn app].
  rewrite app_nil_r, Hb. cbn [negb orb].
  now rewrite (calc_dv_digits body Hd).
Qed.

(** X6: a non-empty body of digits followed by its computed check digit
    is valid, and no other final character makes it valid. *)
Theorem validate_rut_unique_check_digit (body : pystr) :
  isdigit body = true ->
  exists dv,
    _calc_dv body = Ok dv
    /\ validate_rut (body ++ dv) = Ok true
    /\ forall c, in_rut_class c = true ->
         (validate_rut (body ++ [c]) = Ok true <-> [lower_cp c] = dv).
Proof.
  intros Hb. assert (Hd := isdigit_forallb body Hb).
  exists (RutSpec.check_digit body).
  split; [now apply calc_dv_digits|].
  destruct (check_digit_char body) as (d & Hdv & Hcase).
  destruct (rut_char_cases d Hcase) as [Hin Hlow].
  split.
  - rewrite Hdv, (validate_rut_body_char body d Hb Hin), Hdv, Hlow.
    f_equal. now apply str_eqb_eq.
  - intros c Hc. rewrite (validate_rut_body_char body c Hb Hc).
    split.
    + intros E. apply ok_inj in E. apply str_eqb_eq in E. now symmetry.
    + intros E. f_equal. apply str_eqb_eq. now symmetry.
Qed.

Lemma validate_rut_unique_check_digit_witness :
  isdigit (py "12345678") = true
  /\ exists dv,
       _calc_dv (py "12345678") = Ok dv
       /\ validate_rut (py "12345678" ++ dv) = Ok true
       /\ forall c, in_rut_class c = true ->
            (validate_rut (py "12345678" ++ [c]) = Ok true
             <-> [lower_cp c] = dv).
Proof.
  split; [reflexivity|].
  apply (validate_rut_unique_check_digit (py "12345678")). reflexivity.
Defined.

(** ** The shape of the separated body *)

Lemma dots_every_3_filter body :
  filter (fun c => negb (is_dot c)) (RutSpec.dots_every_3 body)
  = filter (fun c => negb (is_dot c)) body.
Proof.
  induction body as [|c body IH]; [reflexivity|].
  cbn [RutSpec.dots_every_3].
  destruct (negb (Nat.eqb (length body) 0) && Nat.eqb (length body mod 3) 0);
    simpl; rewrite IH; reflexivity.
Qed.

Lemma dots_every_3_length body :
  length (RutSpec.dots_every_3 body)
  = (length body + (length body - 1) / 3)%nat.
Proof.
  induction body as [|c body IH]; [reflexivity|].
  cbn [RutSpec.dots_every_3].
  destruct (Nat.eqb (length body) 0) eqn:E0;
    destruct (Nat.eqb (length body mod 3) 0) eqn:E3;
    cbn [negb andb]; simpl length; rewrite ?IH;
    rewrite ?Nat.eqb_eq, ?Nat.eqb_neq in *.
  - rewrite E0. reflexivity.
  - rewrite E0 in E3. simpl in E3. congruence.
  - replace (S (length body) - 1)%nat with (length body) by lia.
    assert (H := Nat.div_mod_eq (length body) 3).
    assert (H' := Nat.div_mod_eq (length body - 1) 3).
    assert (Hm : ((length body - 1) mod 3 < 3)%nat)
      by (apply Nat.mod_upper_bound; lia).
    lia.
  - replace (S (length body) - 1)%nat with (length body) by lia.
    assert (H := Nat.div_mod_eq (length body) 3).
    assert (H' := Nat.div_mod_eq (length body - 1) 3).
    assert (Hm : ((length body - 1) mod 3 < 3)%nat)
      by (apply Nat.mod_upper_bound; lia).
    assert (Hm' : (length body mod 3 < 3)%nat)
      by (apply Nat.mod_upper_bound; lia).
    lia.
Qed.

(** X8: [_format_miles] only adds dots: without its dots the result is
    the body without its dots; and a body of n characters gets
    (n - 1) / 3 of them. *)
Theorem format_miles_shape (cuerpo : pystr) :
  filter (fun c => negb (is_dot c)) (_format_miles cuerpo)
  = filter (fun c => negb (is_dot c)) cuerpo
  /\ length (_format_miles cuerpo)
     = (length cuerpo + (length cuerpo - 1) / 3)%nat.
Proof.
  rewrite format_miles_dots.
  split; [apply dots_every_3_filter | apply dots_every_3_length].
Qed.

(** ** The callback of the RUT field *)

Lemma format_rut_twice raw : format_rut (format_rut raw) = format_rut raw.
Proof.
  rewrite (format_rut_unfold (format_rut raw)), clean_format_rut.
  symmetry. apply format_rut_unfold.
Qed.

(** X9: after [rut_on_change] both "rut" and "rut_raw" hold the
    formatted value of what was typed and no other key has changed;
    running the callback again changes nothing; and the value the form
    then reads validates exactly when the typed value does. *)
Theorem rut_on_change_settles (st : Session.session_state) :
  Session.get (Form.rut_on_change st) "rut" []
  = format_rut (Session.get st "rut_raw" [])
  /\ Session.get (Form.rut_on_change st) "rut_raw" []
     = format_rut (Session.get st "rut_raw" [])
  /\ (forall k, k <> "rut"%string -> k <> "rut_raw"%string ->
        Form.rut_on_change st k = st k)
  /\ (forall k, Form.rut_on_change (Form.rut_on_change st) k
                = Form.rut_on_change st k)
  /\ validate_rut (Form.rut_del_formulario (Form.rut_on_change st))
     = validate_rut (Session.get st "rut_raw" []).
Proof.
  unfold Form.rut_del_formulario, Form.rut_on_change, Session.get, Session.set.
  cbn [String.eqb Ascii.eqb Bool.eqb].
  repeat split.
  - intros k H1 H2.
    destruct (String.eqb_spec k "rut_raw"); [contradiction|].
    destruct (String.eqb_spec k "rut"); [contradiction | reflexivity].
  - intros k. rewrite format_rut_twice.
    destruct (String.eqb k "rut_raw"); [reflexivity|].
    destruct (String.eqb k "rut"); reflexivity.
  - unfold validate_rut. now rewrite clean_format_rut.
Qed.

(** ** Failures of the annotation *)

Section AnnotationFailures.
Context {F : Fitz}.

(** X10: the annotation has no output when the document does not
    decode (the error of [fitz.open] is the error of the call) or when
    the signature step on the last page raises (its error is the error
    of the call). *)
Theorem insertar_firma_y_texto_propagates
  (pdf_bytes : Buffer) (firma_img : Image)
  (nombre recinto fecha_str rut observacion : pystr) (firma_width : Z) :
  (forall e,
     fitz_open pdf_bytes = Raise e ->
     Pdf.insertar_firma_y_texto_en_pdf pdf_bytes firma_img nombre recinto
       fecha_str rut observacion firma_width = Raise e)
  /\ (forall doc pagina e,
        fitz_open pdf_bytes = Ok doc ->
        nth_error doc (length doc - 1) = Some pagina ->
        Pdf.insertar_firma
          (Pdf.insertar_campos pagina nombre recinto fecha_str rut)
          firma_img firma_width = Raise e ->
        Pdf.insertar_firma_y_texto_en_pdf pdf_bytes firma_img nombre recinto
          fecha_str rut observacion firma_width = Raise e).
Proof.
  unfold Pdf.insertar_firma_y_texto_en_pdf. split.
  - intros e H. now rewrite H.
  - intros doc pagina e Ho Hn He. rewrite Ho. cbn [bind].
    unfold Pdf.last_index. destruct doc as [|p doc]; [discriminate Hn|].
    cbn [bind]. rewrite Hn. unfold Pdf.anotar_pagina. now rewrite He.
Qed.


Lemma insertar_dato_campo_search pagina etiqueta texto ox oy :
  (forall pg p t fs fn c l,
     search_for (insert_text pg p t fs fn c) l = search_for pg l) ->
  forall l,
    search_for (Pdf.insertar_dato_campo pagina etiqueta texto ox oy) l
    = search_for pagina l.
Proof.
  intros H l. unfold Pdf.insertar_dato_campo.
  destruct (search_for pagina etiqueta) as [|box rest]; [reflexivity|].
  destruct texto; [reflexivity | apply H].
Qed.

Lemma write_fields_from_origin (origen : Page) (fs : list FieldSpec.field) :
  (forall pg p t fs fn c l,
     search_for (insert_text pg p t fs fn c) l = search_for pg l) ->
  forall pagina,
    (forall l, search_for pagina l = search_for origen l) ->
    FieldSpec.write_fields pagina fs = Form.escribir_desde origen pagina fs
    /\ forall l,
         search_for (FieldSpec.write_fields pagina fs) l = search_for origen l.
Proof.
  intros H. unfold FieldSpec.write_fields, Form.escribir_desde.
  induction fs as [|f fs IH]; intros pagina Hpg; [split; [reflexivity | exact Hpg]|].
  cbn [fold_left].
  assert (Hstep :
    Pdf.insertar_dato_campo pagina (FieldSpec.label f) (FieldSpec.value f)
      (FieldSpec.offset_x f) (FieldSpec.offset_y f)
    = match search_for origen (FieldSpec.label f), FieldSpec.value f with
      | box :: _, _ :: _ =>
          insert_text pagina
            ((x1 box + float_of_int (FieldSpec.offset_x f))%float,
             (y0 box + float_of_int (FieldSpec.offset_y f))%float)
            (FieldSpec.value f) 11 Pdf.helv Pdf.negro
      | _, _ => pagina
      end).
  { unfold Pdf.insertar_dato_campo. now rewrite Hpg. }
  rewrite <- Hstep. apply IH.
  intros l. now rewrite (insertar_dato_campo_search _ _ _ _ _ H).
Qed.

(** X12: if drawing text does not change what [search_for] finds, every
    field is written at the point computed from the box its label has
    on the page as it was before the first write, and the labels found
    after the four writes are those of that page. *)
Theorem insertar_campos_from_original
  (pagina : Page) (nombre recinto fecha_str rut : pystr) :
  (forall pg p t fs fn c l,
     search_for (insert_text pg p t fs fn c) l = search_for pg l) ->
  Pdf.insertar_campos pagina nombre recinto fecha_str rut
  = Form.escribir_desde pagina pagina
      (FieldSpec.fields nombre recinto rut fecha_str)
  /\ forall l,
       search_for (Pdf.insertar_campos pagina nombre recinto fecha_str rut) l
       = search_for pagina l.
Proof.
  intros H.
  change (Pdf.insertar_campos pagina nombre recinto fecha_str rut)
    with (FieldSpec.write_fields pagina
            (FieldSpec.fields nombre recinto rut fecha_str)).
  apply write_fields_from_origin; [exact H | reflexivity].
Qed.

End AnnotationFailures.

Lemma insertar_firma_y_texto_propagates_witness :
  fitz_open Mock.Garbage = Raise (ExternalError 1)
  /\ Pdf.insertar_firma_y_texto_en_pdf Mock.Garbage Mock.firma (py "Ana")
       (py "Local 2") (py "04-11-2026") (py "1-9") (py "") 120
     = Raise (ExternalError 1)
  /\ Pdf.insertar_firma
       (Pdf.insertar_campos Mock.factura (py "Ana") (py "Local 2")
          (py "04-11-2026") (py "1-9"))
       MockServicios.firma_vacia 120
     = Raise ZeroDivisionError
  /\ Pdf.insertar_firma_y_texto_en_pdf
       (Mock.PdfBytes [Mock.portada; Mock.factura]) MockServicios.firma_vacia
       (py "Ana") (py "Local 2") (py "04-11-2026") (py "1-9") (py "") 120
     = Raise ZeroDivisionError.
Proof.
  split; [reflexivity|]. split; [|split; [reflexivity|]].
  - destruct (insertar_firma_y_texto_propagates (F := Mock.fitz) Mock.Garbage
                Mock.firma (py "Ana") (py "Local 2") (py "04-11-2026")
                (py "1-9") (py "") 120) as [H _].
    apply H. reflexivity.
  - destruct (insertar_firma_y_texto_propagates (F := Mock.fitz)
                (Mock.PdfBytes [Mock.portada; Mock.factura])
                MockServicios.firma_vacia (py "Ana") (py "Local 2")
                (py "04-11-2026") (py "1-9") (py "") 120) as [_ H].
    apply (H [Mock.portada; Mock.factura] Mock.factura); reflexivity.
Defined.


Lemma insertar_campos_from_original_witness :
  Pdf.insertar_campos Mock.factura (py "Ana") (py "Local 2")
    (py "04-11-2026") (py "1-9")
  = Form.escribir_desde Mock.factura Mock.factura
      (FieldSpec.fields (py "Ana") (py "Local 2") (py "1-9")
         (py "04-11-2026"))
  /\ forall l,
       search_for (Pdf.insertar_campos Mock.factura (py "Ana") (py "Local 2")
                     (py "04-11-2026") (py "1-9")) l
       = search_for Mock.factura l.
Proof.
  apply (insertar_campos_from_original (F := Mock.fitz) Mock.factura).
  intros pg p t fs fn c l. reflexivity.
Defined.

(** ** Edges of the invoice-number extraction *)

Lemma search_at_start s d :
  ScanSpec.here s = Some d ->
  Pdf.patron_search s = Some (Re.with_group1 d).
Proof.
  intros H. unfold Pdf.patron_search.
  destruct s; cbn [Re.search]; rewrite patron_here, H; reflexivity.
Qed.

(** X13: when a marker and optional whitespace are followed by eight or
    more digits at the very start of the text, the number returned is
    the first eight of them: longer numbers are cut. *)
Theorem patron_search_truncates (m ws d rest : pystr) :
  ScanSpec.is_marker m ->
  forallb is_space ws = true ->
  forallb is_ascii_digit d = true ->
  (8 <= length d)%nat ->
  Pdf.patron_search (m ++ ws ++ d ++ rest)
  = Some (Re.with_group1 (firstn 8 d)).
Proof.
  intros Hm Hws Hd Hl.
  assert (Hlen : length (firstn 8 d) = 8%nat) by (rewrite length_firstn; lia).
  assert (Hmatch : ScanSpec.match_here (m ++ ws ++ d ++ rest) (firstn 8 d)).
  { exists m, ws, (skipn 8 d ++ rest). repeat split; auto; try lia.
    - now rewrite (app_assoc (firstn 8 d)), firstn_skipn.
    - now apply forallb_firstn. }
  apply here_complete in Hmatch as (d0 & H0 & Hp).
  destruct (here_digits _ _ H0) as [_ [_ H8]].
  rewrite Hlen in Hp.
  assert (E : firstn 8 d = d0).
  { rewrite Hp. apply firstn_all2. exact H8. }
  rewrite E. now apply search_at_start.
Qed.

Lemma patron_search_truncates_witness :
  Pdf.patron_search
    ([78; 186]%N ++ py " " ++ py "1234567890" ++ py " del mes")
  = Some (Re.with_group1 (py "12345678")).
Proof.
  apply (patron_search_truncates [78; 186]%N (py " ") (py "1234567890")
           (py " del mes")); try reflexivity.
  - exists [78; 186]%N. split; [simpl; auto | reflexivity].
  - simpl. lia.
Defined.

Section ExtractionEdges.
Context {F : Fitz}.

Lemma extraer_loop_raise pre bad post e :
  (forall p, In p pre ->
     exists t, get_text p = Ok t /\ Pdf.patron_search t = None) ->
  get_text bad = Raise e ->
  Pdf.extraer_loop (pre ++ bad :: post) = Raise e.
Proof.
  intros Hpre He. induction pre as [|p pre IH].
  - cbn [app Pdf.extraer_loop]. now rewrite He.
  - destruct (Hpre p (or_introl eq_refl)) as (t & Hp & Hn).
    cbn [app Pdf.extraer_loop]. rewrite Hp. cbn [bind]. rewrite Hn.
    apply IH. intros q Hq. apply Hpre. now right.
Qed.

(** X14: a page whose text cannot be read ends the scan: when the pages
    before it have no match the result is None, whatever the pages
    after it contain. *)
Theorem extraer_stops_at_unreadable_page
  (pdf_bytes : Buffer) (pre post : list Page) (bad : Page) (e : exn) :
  fitz_open pdf_bytes = Ok (pre ++ bad :: post) ->
  (forall p, In p pre ->
     exists t, get_text p = Ok t /\ Pdf.patron_search t = None) ->
  get_text bad = Raise e ->
  Pdf.extraer_numero_factura pdf_bytes = Ok None.
Proof.
  intros Ho Hpre He. unfold Pdf.extraer_numero_factura.
  rewrite Ho. cbn [bind]. now rewrite (extraer_loop_raise pre bad post e).
Qed.

Lemma extraer_some_digits pdf_bytes d :
  Pdf.extraer_numero_factura pdf_bytes = Ok (Some d) ->
  forallb is_ascii_digit d = true /\ (5 <= length d <= 8)%nat.
Proof.
  unfold Pdf.extraer_numero_factura.
  destruct (fitz_open pdf_bytes) as [doc|e]; cbn [bind]; [|discriminate].
  destruct (Pdf.extraer_loop doc) as [[v|]|e] eqn:E; try discriminate.
  intros H. apply ok_inj in H. subst v.
  apply extraer_loop_result in E as (d' & [= <-] & Hd). exact Hd.
Qed.

(** X15: a number found in the uploaded file is always stored under
    "numero_factura" (it is never the empty string, so the test
    [if numero_detectado] lets it through), no other key changes, and
    without a number the state is left as it was. *)
Theorem detectar_numero_stores
  (pdf_bytes : Buffer) (st : Session.session_state) :
  (forall d,
     Pdf.extraer_numero_factura pdf_bytes = Ok (Some d) ->
     exists st',
       Form.detectar_numero (Some pdf_bytes) st = Ok st'
       /\ Session.get st' "numero_factura" [] = d
       /\ forall k, k <> "numero_factura"%string -> st' k = st k)
  /\ (Pdf.extraer_numero_factura pdf_bytes = Ok None ->
      Form.detectar_numero (Some pdf_bytes) st = Ok st)
  /\ Form.detectar_numero None st = Ok st.
Proof.
  split; [|split].
  - intros d H. destruct (extraer_some_digits pdf_bytes d H) as [_ [Hl _]].
    unfold Form.detectar_numero. rewrite H. cbn [bind].
    destruct d as [|c d]; [simpl in Hl; lia|]. cbn [truthy].
    eexists. split; [reflexivity|]. split.
    + unfold Session.get, Session.set. now rewrite String.eqb_refl.
    + intros k Hk. unfold Session.set.
      destruct (String.eqb_spec k "numero_factura"); [contradiction | reflexivity].
  - intros H. unfold Form.detectar_numero. now rewrite H.
  - reflexivity.
Qed.

End ExtractionEdges.

Lemma extraer_stops_at_unreadable_page_witness :
  Pdf.extraer_numero_factura (F := MockIlegible.fitz)
    [Some (py "Condiciones"); None; Some (py "Nro. 99999999")]
  = Ok None.
Proof.
  apply (extraer_stops_at_unreadable_page (F := MockIlegible.fitz)
           [Some (py "Condiciones"); None; Some (py "Nro. 99999999")]
           [Some (py "Condiciones")] [Some (py "Nro. 99999999")] None
           (ExternalError 3)).
  - reflexivity.
  - intros p [<-|[]]. exists (py "Condiciones"). split; reflexivity.
  - reflexivity.
Defined.

Lemma detectar_numero_stores_witness :
  exists st',
    Form.detectar_numero (Some (Mock.PdfBytes [Mock.portada; Mock.factura]))
      Session.vacio = Ok st'
    /\ Session.get st' "numero_factura" [] = py "123456"
    /\ forall k, k <> "numero_factura"%string -> st' k = Session.vacio k.
Proof.
  destruct (detectar_numero_stores (F := Mock.fitz)
              (Mock.PdfBytes [Mock.portada; Mock.factura]) Session.vacio)
    as (H & _ & _).
  apply (H (py "123456")). reflexivity.
Defined.

(** ** The preview and the sign button *)

Section Button.
Context {F : Fitz} {S : Servicios}.

(** X17: the preview is the rasterised last page at zoom 4, whatever
    the other pages are; a document that does not decode gives the
    decoder's error. *)
Theorem render_preview_last_page (pdf_bytes : Buffer) :
  (forall pre pagina,
     fitz_open pdf_bytes = Ok (pre ++ [pagina]) ->
     Ui.render_preview pdf_bytes = get_pixmap_png pagina 4)
  /\ (forall e,
        fitz_open pdf_bytes = Raise e -> Ui.render_preview pdf_bytes = Raise e).
Proof.
  unfold Ui.render_preview. split.
  - intros pre pagina H. rewrite H. cbn [bind]. unfold Pdf.last_index.
    destruct (pre ++ [pagina]) as [|p l] eqn:E;
      [destruct pre; discriminate E|].
    cbn [bind]. rewrite <- E. rewrite length_app. cbn [length].
    replace (length pre + 1 - 1)%nat with (length pre) by lia.
    rewrite nth_error_app2 by lia. now rewrite Nat.sub_diag.
  - intros e H. now rewrite H.
Qed.

(** X16: the sign button calls the upload, or offers the download, only
    for a drawn signature, non-empty name, address, RUT and invoice
    number, and a RUT that validates; the file is then named
    "Factura <number> <initials>.pdf" and is the output of the
    annotation at signature width 120. *)
Theorem firmar_factura_guard
  (signature_img : option Image) (pdf_bytes : Buffer)
  (nombre recinto fecha_str rut observacion numero_factura iniciales : pystr)
  (archivo : pystr) (pdf : Buffer) :
  In (Ui.EvUpload archivo pdf)
     (fst (Ui.firmar_factura signature_img pdf_bytes nombre recinto fecha_str
             rut observacion numero_factura iniciales))
  \/ In (Ui.EvDownload archivo pdf)
        (fst (Ui.firmar_factura signature_img pdf_bytes nombre recinto
                fecha_str rut observacion numero_factura iniciales)) ->
  (exists img,
     signature_img = Some img
     /\ Pdf.insertar_firma_y_texto_en_pdf pdf_bytes img nombre recinto
          fecha_str rut observacion 120 = Ok pdf)
  /\ nombre <> [] /\ recinto <> [] /\ rut <> [] /\ numero_factura <> []
  /\ validate_rut rut = Ok true
  /\ archivo = Ui.nombre_archivo numero_factura iniciales.
Proof.
  unfold Ui.firmar_factura.
  destruct signature_img as [img|]; [|simpl; intuition discriminate].
  destruct nombre as [|n1 n]; [simpl; intuition discriminate|].
  destruct recinto as [|r1 r]; [simpl; intuition discriminate|].
  destruct rut as [|u1 u]; [simpl; intuition discriminate|].
  destruct numero_factura as [|m1 m]; [simpl; intuition discriminate|].
  cbn [truthy andb negb].
  destruct (validate_rut (u1 :: u)) as [[|]|e] eqn:Hv;
    [|simpl; intuition discriminate|simpl; tauto].
  destruct (Pdf.insertar_firma_y_texto_en_pdf pdf_bytes img (n1 :: n)
              (r1 :: r) fecha_str (u1 :: u) observacion 120)
    as [pdf_final|e] eqn:Hpdf; [|simpl; tauto].
  cbv zeta.
  intros H.
  assert (Hres : archivo = Ui.nombre_archivo (m1 :: m) iniciales
                 /\ pdf = pdf_final).
  { destruct (subir_a_drive (Ui.nombre_archivo (m1 :: m) iniciales) pdf_final)
      as [id|e]; [destruct (Ui.render_preview pdf_final) as [png|e]|];
      cbn [fst In] in H;
      repeat (destruct H as [H|H]);
      first [ discriminate H | contradiction | injection H as <- <-; auto ]. }
  destruct Hres as [-> ->].
  split; [exists img; split; [reflexivity | exact Hpdf]|].
  repeat split; try discriminate.
Qed.

End Button.

Lemma render_preview_last_page_witness :
  Ui.render_preview (Mock.PdfBytes ([Mock.portada] ++ [Mock.factura]))
  = get_pixmap_png Mock.factura 4
  /\ Ui.render_preview Mock.Garbage = Raise (ExternalError 1).
Proof.
  split.
  - destruct (render_preview_last_page (F := Mock.fitz)
                (Mock.PdfBytes ([Mock.portada] ++ [Mock.factura])))
      as (H & _).
    apply (H [Mock.portada]). reflexivity.
  - destruct (render_preview_last_page (F := Mock.fitz) Mock.Garbage)
      as (_ & H).
    apply H. reflexivity.
Defined.

Lemma firmar_factura_guard_witness :
  exists pdf,
    In (Ui.EvUpload (py "Factura 123456 FVM.pdf") pdf)
       (fst (Ui.firmar_factura (Some Mock.firma)
               (Mock.PdfBytes [Mock.portada; Mock.factura]) (py "Ana")
               (py "Local 2") (py "04-11-2026") (py "12.345.678-5") (py "")
               (py "123456") (py "FVM")))
    /\ validate_rut (py "12.345.678-5") = Ok true
    /\ py "Factura 123456 FVM.pdf" = Ui.nombre_archivo (py "123456") (py "FVM").
Proof.
  eexists. split; [right; left; reflexivity|].
  eapply (firmar_factura_guard (F := Mock.fitz) (Some Mock.firma)
            (Mock.PdfBytes [Mock.portada; Mock.factura]) (py "Ana")
            (py "Local 2") (py "04-11-2026") (py "12.345.678-5") (py "")
            (py "123456") (py "FVM")).
  left. right. left. reflexivity.
Defined.

(** ** Editing the displayed value *)

Lemma same_clean x y :
  _clean_rut x = _clean_rut y ->
  format_rut x = format_rut y /\ validate_rut x = validate_rut y.
Proof. unfold format_rut, validate_rut. now intros ->. Qed.

(** X18: since the callback replaces what was typed by its formatted
    value, the next edit is made on formatted text; formatting or
    validating an edited formatted value gives the same as editing the
    raw value. *)
Theorem format_rut_edit_formatted (a raw b : pystr) :
  format_rut (a ++ format_rut raw ++ b) = format_rut (a ++ raw ++ b)
  /\ validate_rut (a ++ format_rut raw ++ b) = validate_rut (a ++ raw ++ b).
Proof.
  apply same_clean. now rewrite !clean_rut_app, clean_format_rut.
Qed.

Lemma truthy_format_rut raw : truthy (format_rut raw) = truthy (_clean_rut raw).
Proof.
  rewrite format_rut_unfold.
  destruct (length (_clean_rut raw) <? 2)%nat eqn:L; [reflexivity|].
  destruct (negb (isdigit (slice_to_neg 1 (_clean_rut raw)))); [reflexivity|].
  apply Nat.ltb_ge in L.
  destruct (_clean_rut raw) as [|c s] eqn:E; [simpl in L; lia|].
  destruct (RutSpec.dots_every_3 (slice_to_neg 1 (c :: s))); reflexivity.
Qed.

(** X19: after the callback, the caption "RUT inválido" is shown
    exactly when the typed text has at least one digit or k and does not
    validate; text without any such character shows no caption. *)
Theorem rut_invalido_after_change (st : Session.session_state) :
  exists valido,
    validate_rut (Session.get st "rut_raw" []) = Ok valido
    /\ Form.rut_invalido (Form.rut_del_formulario (Form.rut_on_change st))
       = Ok (truthy (_clean_rut (Session.get st "rut_raw" []))
             && negb valido).
Proof.
  set (raw := Session.get st "rut_raw" []).
  assert (Hrut : Form.rut_del_formulario (Form.rut_on_change st)
                 = format_rut raw) by reflexivity.
  rewrite Hrut. unfold Form.rut_invalido.
  rewrite truthy_format_rut.
  assert (Hv : validate_rut (format_rut raw) = validate_rut raw)
    by (unfold validate_rut; now rewrite clean_format_rut).
  rewrite Hv.
  assert (Hok : exists v, validate_rut raw = Ok v).
  { unfold validate_rut.
    destruct ((length (_clean_rut raw) <? 2)%nat
              || negb (isdigit (slice_to_neg 1 (_clean_rut raw)))) eqn:G;
      [now exists false|].
    apply orb_false_elim in G as [_ G]. apply negb_false_iff in G.
    rewrite (calc_dv_digits _ (isdigit_forallb _ G)). cbn [bind].
    eexists. reflexivity. }
  destruct Hok as [v Hv']. exists v. split; [exact Hv'|].
  rewrite Hv'. cbn [bind]. destruct (truthy (_clean_rut raw)); reflexivity.
Qed.

(** ** A page without labels *)

Section NoLabels.
Context {F : Fitz}.

Lemma set_page_id doc : forall i pg,
  nth_error doc i = Some pg -> Pdf.set_page doc i pg = doc.
Proof.
  induction doc as [|p doc IH]; intros [|i] pg H; simpl in *;
    try discriminate.
  - now injection H as ->.
  - now rewrite IH.
Qed.

(** X20: when the last page has none of the six labels, the output is
    the input document saved again, with every page as it was. *)
Theorem insertar_firma_y_texto_no_labels
  (pdf_bytes : Buffer) (firma_img : Image)
  (nombre recinto fecha_str rut observacion : pystr) (firma_width : Z)
  (doc : list Page) (pagina : Page) :
  fitz_open pdf_bytes = Ok doc ->
  nth_error doc (length doc - 1) = Some pagina ->
  (forall l,
     In l [py "Nombre:"; py "Recinto:"; py "RUT:"; py "Fecha:"; py "Firma";
           py "CEDIBLE"] ->
     search_for pagina l = []) ->
  Pdf.insertar_firma_y_texto_en_pdf pdf_bytes firma_img nombre recinto
    fecha_str rut observacion firma_width = Ok (doc_save doc).
Proof.
  intros Ho Hn Hl.
  assert (Hc : Pdf.insertar_campos pagina nombre recinto fecha_str rut = pagina).
  { unfold Pdf.insertar_campos.
    rewrite (insertar_dato_campo_absent pagina (py "Nombre:"))
      by (apply Hl; simpl; auto).
    rewrite (insertar_dato_campo_absent pagina (py "Recinto:"))
      by (apply Hl; simpl; auto).
    rewrite (insertar_dato_campo_absent pagina (py "RUT:"))
      by (apply Hl; simpl; auto).
    apply insertar_dato_campo_absent. apply Hl. simpl. auto. }
  unfold Pdf.insertar_firma_y_texto_en_pdf. rewrite Ho. cbn [bind].
  unfold Pdf.last_index. destruct doc as [|p doc]; [discriminate Hn|].
  cbn [bind]. rewrite Hn. unfold Pdf.anotar_pagina. rewrite Hc.
  rewrite insertar_firma_absent by (apply Hl; simpl; auto 6).
  cbn [bind].
  rewrite insertar_observacion_absent by (apply Hl; simpl; auto 7).
  now rewrite (set_page_id _ _ _ Hn).
Qed.

End NoLabels.

Lemma insertar_firma_y_texto_no_labels_witness :
  Pdf.insertar_firma_y_texto_en_pdf (Mock.PdfBytes [Mock.factura; Mock.portada])
    Mock.firma (py "Ana") (py "Local 2") (py "04-11-2026")
    (py "12.345.678-5") (py "ok") 120
  = Ok (doc_save [Mock.factura; Mock.portada]).
Proof.
  apply (insertar_firma_y_texto_no_labels (F := Mock.fitz)
           (Mock.PdfBytes [Mock.factura; Mock.portada]) Mock.firma (py "Ana")
           (py "Local 2") (py "04-11-2026") (py "12.345.678-5") (py "ok") 120
           [Mock.factura; Mock.portada] Mock.portada);
    [reflexivity | reflexivity | intros l _; reflexivity].
Defined.
